(** * net_troubleshooter: ping-output parsing, record aggregation and CSV rows

    A shallow embedding of [net_troubleshooter.py].  Python values are
    modelled as follows.

    - [str]: a list of characters.  A character is a code point below 256
      (Rocq's 8-bit [ascii], read as Latin-1), which covers the output of
      the ping and traceroute utilities.  On this range the classes [\d],
      [\s], [\w] of [re] and [str.lower] are the ones defined below.
    - [int]: [Z].  [int(s)] is the decimal value of a digit string of at
      most 4300 digits and a [ValueError] past that, which is the bound the
      interpreter puts on the strings it converts unless it is set
      otherwise ([sys.int_info.default_max_str_digits]).
    - [float]: IEEE-754 binary64 as [spec_float] with [prec = 53] and
      [emax = 1024]; operations round to nearest, ties to even.
    - exceptions: a result type [Res] with [Ok] and [Raise].
    - [re.search]: a backtracking matcher over the pattern fragment the
      four patterns of [ping_host] are written in. *)

From Stdlib Require Import ZArith NArith List Ascii String Bool Lia DecimalString.
From Stdlib Require Import Floats.SpecFloat.
From stdpp Require Import gmap strings list fin_maps.

Local Open Scope Z_scope.

(** ** Text *)

Abbreviation text := (list ascii).

Definition txt (s : string) : text := list_ascii_of_string s.

Definition ord (c : ascii) : N := N_of_ascii c.

Definition in_range (lo hi : N) (c : ascii) : bool :=
  ((lo <=? ord c) && (ord c <=? hi))%N.

Definition is_char (a : ascii) (c : ascii) : bool := (ord a =? ord c)%N.

(** [[0-9]] *)
Definition ascii_digit (c : ascii) : bool := in_range 48 57 c.

(** [\d]: the decimal digits.  Below code point 256 these are [0-9]. *)
Definition digit (c : ascii) : bool := in_range 48 57 c.

(** [\s]: the characters for which [str.isspace] holds. *)
Definition space (c : ascii) : bool :=
  in_range 9 13 c || in_range 28 32 c || (ord c =? 133)%N || (ord c =? 160)%N.

(** [\w]: alphanumeric characters and the underscore. *)
Definition word (c : ascii) : bool :=
  in_range 48 57 c || in_range 65 90 c || in_range 97 122 c || (ord c =? 95)%N
  || (ord c =? 170)%N || (ord c =? 178)%N || (ord c =? 179)%N || (ord c =? 181)%N
  || (ord c =? 185)%N || (ord c =? 186)%N || in_range 188 190 c
  || in_range 192 214 c || in_range 216 246 c || in_range 248 255 c.

(** [.] under [re.S] *)
Definition any (c : ascii) : bool := true.

(** [[\w/]] and [[\d\.]] *)
Definition word_or_slash (c : ascii) : bool := word c || is_char "/" c.
Definition digit_or_dot (c : ascii) : bool := digit c || is_char "." c.

(** [str.lower], character by character. *)
Definition lower_char (c : ascii) : ascii :=
  if in_range 65 90 c || (in_range 192 222 c && negb (ord c =? 215)%N)
  then ascii_of_N (ord c + 32) else c.

Definition lower (s : text) : text := map lower_char s.

Fixpoint starts_with (sub s : text) : bool :=
  match sub, s with
  | [], _ => true
  | a :: sub', c :: s' => is_char a c && starts_with sub' s'
  | _ :: _, [] => false
  end.

(** [sub in s] *)
Fixpoint contains (sub s : text) : bool :=
  starts_with sub s ||
  match s with
  | [] => false
  | _ :: s' => contains sub s'
  end.

(** ** Exceptions *)

Inductive exn : Type :=
| ValueError
| OverflowError
| ZeroDivisionError
| IndexError
| IOError (msg : text).

Inductive Res (A : Type) : Type :=
| Ok (a : A)
| Raise (e : exn).
Arguments Ok {A} a.
Arguments Raise {A} e.

Definition res_bind {A B} (x : Res A) (f : A -> Res B) : Res B :=
  match x with
  | Ok a => f a
  | Raise e => Raise e
  end.

Declare Scope res_scope.
Delimit Scope res_scope with res.
Notation "'let*' x ':=' e 'in' k" := (res_bind e (fun x => k))
  (at level 10, x name, e at level 100, k at level 200) : res_scope.

(** ** Numbers *)

Definition float := spec_float.

Definition fprec : Z := 53.
Definition femax : Z := 1024.

Definition fmul : float -> float -> float := SFmul fprec femax.
Definition fsub : float -> float -> float := SFsub fprec femax.
Definition fdiv : float -> float -> float := SFdiv fprec femax.

(** An integer as a float operand with its exact value. *)
Definition exact_of_Z (z : Z) : spec_float :=
  match z with
  | Z0 => S754_zero false
  | Zpos p => S754_finite false p 0
  | Zneg p => S754_finite true p 0
  end.

(** [float(n)] for an int [n]: the nearest float, infinite past the range. *)
Definition float_of_Z (z : Z) : float := binary_normalize fprec femax z 0 false.

Definition is_infinite (f : float) : bool :=
  match f with
  | S754_infinity _ => true
  | _ => false
  end.

(** [a / b] on ints: the correctly rounded quotient; [ZeroDivisionError] for
    [b = 0], [OverflowError] when the quotient rounds past the largest float. *)
Definition int_true_div (a b : Z) : Res float :=
  if b =? 0 then Raise ZeroDivisionError
  else
    let q := fdiv (exact_of_Z a) (exact_of_Z b) in
    if is_infinite q then Raise OverflowError else Ok q.

Definition digit_value (c : ascii) : Z := Z.of_N (ord c) - 48.

Definition digits_value (ds : text) : Z :=
  fold_left (fun acc c => 10 * acc + digit_value c) ds 0.

Definition is_digits (s : text) : bool :=
  match s with
  | [] => false
  | _ => forallb digit s
  end.

(** The longest digit string [int] converts. *)
Definition int_max_str_digits : nat := 4300.

Definition too_long (s : text) : bool := (int_max_str_digits <? length s)%nat.

(** [int(s)] on the strings the patterns capture: digit strings of at most
    [int_max_str_digits] digits convert, anything else is a [ValueError]. *)
Definition py_int (s : text) : Res Z :=
  if is_digits s then
    if too_long s then Raise ValueError else Ok (digits_value s)
  else Raise ValueError.

(** Splits at the first ["."]. *)
Fixpoint split_dot (s : text) : text * option text :=
  match s with
  | [] => ([], None)
  | c :: s' =>
      if is_char "." c then ([], Some s')
      else let '(ip, fp) := split_dot s' in (c :: ip, fp)
  end.

(** [float(s)] on the strings the patterns capture (digits and dots): the
    forms [12], [12.], [.5] and [12.5] convert to the nearest float of the
    decimal value, anything else is a [ValueError]. *)
Definition py_float (s : text) : Res float :=
  let '(ip, fp) := split_dot s in
  let fp := match fp with Some f => f | None => [] end in
  if forallb digit ip && forallb digit fp && negb (Nat.eqb (length (ip ++ fp)) 0)
  then Ok (fdiv (exact_of_Z (digits_value (ip ++ fp)))
                (exact_of_Z (10 ^ Z.of_nat (length fp))))
  else Raise ValueError.

(** ** Regular expressions *)

(** The patterns of [ping_host] are sequences of these atoms. *)
Inductive atom : Type :=
| Chr (p : ascii -> bool)     (* one character of a class; a literal is [is_char] *)
| Plus (p : ascii -> bool)    (* [p+], greedy *)
| Group (p : ascii -> bool)   (* [(p+)], greedy, captured *)
| Lazy (p : ascii -> bool).   (* [p*?], lazy *)

Definition lit (s : string) : list atom := map (fun a => Chr (is_char a)) (txt s).

Section Repetition.
Context {R : Type}.
Variable p : ascii -> bool.

(** Longest run first, then one character less at a time; the
    continuation gets what is left of the text. *)
Fixpoint greedy_star (k : text -> option R) (s : text) : option R :=
  match s with
  | c :: s' =>
      if p c then
        match greedy_star k s' with
        | Some r => Some r
        | None => k s
        end
      else k s
  | [] => k s
  end.

Definition greedy_plus (k : text -> option R) (s : text) : option R :=
  match s with
  | c :: s' => if p c then greedy_star k s' else None
  | [] => None
  end.

(** Shortest run first, then one character more at a time. *)
Fixpoint lazy_star (k : text -> option R) (s : text) : option R :=
  match k s with
  | Some r => Some r
  | None =>
      match s with
      | c :: s' => if p c then lazy_star k s' else None
      | [] => None
      end
  end.
End Repetition.

(** A group is recorded by its two marks: the text left where it starts
    and the text left where it ends.  [slice] is the text in between. *)
Definition slice (mark : text * text) : text :=
  take (length (fst mark) - length (snd mark)) (fst mark).

(** Match of pattern [r] anchored at the start of [s]; [marks] are the groups
    recorded so far, last one first. *)
Fixpoint match_here (r : list atom) (marks : list (text * text)) (s : text)
  : option (list text) :=
  match r with
  | [] => Some (map slice (rev marks))
  | Chr p :: r' =>
      match s with
      | c :: s' => if p c then match_here r' marks s' else None
      | [] => None
      end
  | Plus p :: r' => greedy_plus p (fun rest => match_here r' marks rest) s
  | Group p :: r' => greedy_plus p (fun rest => match_here r' ((s, rest) :: marks) rest) s
  | Lazy p :: r' => lazy_star p (match_here r' marks) s
  end.

(** [re.search]: the match at the leftmost position that has one. *)
Fixpoint re_search (r : list atom) (s : text) : option (list text) :=
  match match_here r [] s with
  | Some m => Some m
  | None =>
      match s with
      | [] => None
      | _ :: s' => re_search r s'
      end
  end.

(** [m.group(i)] for [i >= 1]. *)
Definition group (m : list text) (i : nat) : text := nth (i - 1) m [].

(** [(\d+)\s+packets transmitted.*?(\d+)\s+received.*?([0-9]+)%\s+packet loss], [re.S] *)
Definition unix_summary_re : list atom :=
  [Group digit; Plus space] ++ lit "packets transmitted" ++
  [Lazy any; Group digit; Plus space] ++ lit "received" ++
  [Lazy any; Group ascii_digit] ++ lit "%" ++ [Plus space] ++ lit "packet loss".

(** [Sent = (\d+), Received = (\d+), Lost = (\d+)] *)
Definition windows_summary_re : list atom :=
  lit "Sent = " ++ [Group digit] ++ lit ", Received = " ++ [Group digit] ++
  lit ", Lost = " ++ [Group digit].

(** [rtt [\w/]+ = [\d\.]+/([\d\.]+)/[\d\.]+/[\d\.]+ ms] *)
Definition rtt_re : list atom :=
  lit "rtt " ++ [Plus word_or_slash] ++ lit " = " ++
  [Plus digit_or_dot] ++ lit "/" ++ [Group digit_or_dot] ++ lit "/" ++
  [Plus digit_or_dot] ++ lit "/" ++ [Plus digit_or_dot] ++ lit " ms".

(** [Average = (\d+)ms] *)
Definition average_re : list atom :=
  lit "Average = " ++ [Group digit] ++ lit "ms".

(** ** The result of [ping_host] *)

Module Ping.
Record t : Type := mk {
  host : text;
  success : bool;
  raw : text;
  sent : option Z;
  received : option Z;
  loss_pct : option float;
  avg_rtt_ms : option float
}.

(** [result.update({"sent": s, "received": r, "loss_pct": l})] *)
Definition update_counters (result : t) (s r : option Z) (l : option float) : t :=
  mk (host result) (success result) (raw result) s r l (avg_rtt_ms result).

(** [result["avg_rtt_ms"] = v] *)
Definition set_avg_rtt_ms (result : t) (v : float) : t :=
  mk (host result) (success result) (raw result) (sent result) (received result)
     (loss_pct result) (Some v).

(** [result["success"] = True] *)
Definition set_success (result : t) : t :=
  mk (host result) true (raw result) (sent result) (received result)
     (loss_pct result) (avg_rtt_ms result).

(** The dict [ping_host] starts from. *)
Definition initial (h out : text) : t := mk h false out None None None None.
End Ping.

Local Open Scope res_scope.

(** Lines 34-44 of [ping_host]: the packet counters. *)
Definition parse_counters (text : text) (result : Ping.t) : Res Ping.t :=
  match re_search unix_summary_re text with
  | Some m =>
      let* sent := py_int (group m 1) in
      let* received := py_int (group m 2) in
      let* loss := py_float (group m 3) in
      Ok (Ping.update_counters result (Some sent) (Some received) (Some loss))
  | None =>
      match re_search windows_summary_re text with
      | Some m2 =>
          let* sent := py_int (group m2 1) in
          let* received := py_int (group m2 2) in
          let* lost := py_int (group m2 3) in
          let* loss :=
            (if sent =? 0 then Ok None
             else let* q := int_true_div lost sent in
                  Ok (Some (fmul q (float_of_Z 100)))) in
          Ok (Ping.update_counters result (Some sent) (Some received) loss)
      | None => Ok result
      end
  end.

(** [try: result["avg_rtt_ms"] = float(g) except: pass] *)
Definition try_set_avg_rtt (g : text) (result : Ping.t) : Ping.t :=
  match py_float g with
  | Ok v => Ping.set_avg_rtt_ms result v
  | Raise _ => result
  end.

(** Lines 46-59 of [ping_host]: the average round-trip time. *)
Definition parse_avg_rtt (text : text) (result : Ping.t) : Ping.t :=
  match re_search rtt_re text with
  | Some m3 => try_set_avg_rtt (group m3 1) result
  | None =>
      match re_search average_re text with
      | Some m4 => try_set_avg_rtt (group m4 1) result
      | None => result
      end
  end.

(** [result.get("received") and result["received"] > 0] *)
Definition received_positive (result : Ping.t) : bool :=
  match Ping.received result with
  | Some n => negb (n =? 0) && (0 <? n)
  | None => false
  end.

(** Lines 61-64 of [ping_host]: the success flag. *)
Definition parse_success (text : text) (result : Ping.t) : Ping.t :=
  if received_positive result then Ping.set_success result
  else if contains (txt "ttl=") (lower text) then Ping.set_success result
  else result.

(** Lines 32-66 of [ping_host]: what is done with the output of a ping
    process that could be run. *)
Definition parse_ping (text : text) (result : Ping.t) : Res Ping.t :=
  let* result := parse_counters text result in
  let result := parse_avg_rtt text result in
  Ok (parse_success text result).

(** ** Values written to the CSV file and the result dicts *)

Inductive pyval : Type :=
| PNone
| PBool (b : bool)
| PInt (z : Z)
| PFloat (f : float)
| PStr (s : text).

Definition of_opt {A} (f : A -> pyval) (x : option A) : pyval :=
  match x with
  | Some a => f a
  | None => PNone
  end.

Module Dns.
Record t : Type := mk {
  name : text;
  ip : option text;
  success : bool;
  error : option text
}.
End Dns.

Module Trace.
Record t : Type := mk {
  host : text;
  success : bool;
  raw : text
}.
End Trace.

Module Port.
Record t : Type := mk {
  host : text;
  port : Z;
  open : bool;
  error : option text;
  rtt_ms : float
}.
End Port.

Module Rec.
Record t : Type := mk {
  timestamp : text;
  host : text;
  dns : Dns.t;
  ping : Ping.t;
  traceroute_raw : text;     (* [record["traceroute"]["raw"]] *)
  ports : list Port.t
}.
End Rec.

(** [str(n)] for an int. *)
Definition str_of_Z (n : Z) : text :=
  txt (DecimalString.NilEmpty.string_of_int (Z.to_int n)).

(** [sep.join(parts)] *)
Fixpoint join (sep : text) (parts : list text) : text :=
  match parts with
  | [] => []
  | [x] => x
  | x :: rest => x ++ sep ++ join sep rest
  end.

(** The longest sleep, in seconds, whose length in nanoseconds fits 64 bits. *)
Definition sleep_max : Z := 9223372036.

(** Exact comparison [f < n] of a float with an int. *)
Definition float_lt_Z (f : float) (n : Z) : bool :=
  match f with
  | S754_nan => false
  | S754_infinity s => s
  | S754_zero _ => 0 <? n
  | S754_finite s m e =>
      let v := if s then Z.neg m else Z.pos m in
      match e with
      | Zneg k => v <? n * 2 ^ Z.pos k
      | _ => v * 2 ^ e <? n
      end
  end.

(** ** The operating system

    Every call the program makes to the outside is recorded in a trace,
    newest first, and answered by an oracle from the number of calls made
    before it, so that the answers can be anything and change with time. *)

Inductive event : Type :=
| EvSubprocess (cmd : list text) (timeout : Z)
| EvResolve (name : text)
| EvConnect (host : text) (port : Z) (timeout : float)
| EvTime
| EvNow
| EvStrftime (fmt : text)
| EvPrint (line : text)
| EvSleep (secs : Z)
| EvWriteCsv (filename : text) (header : list string) (rows : list (list pyval)).

Record Oracle : Type := {
  IS_WINDOWS : bool;
  (* [subprocess.run(cmd, capture_output=True, text=True, timeout=t)]:
     stdout and stderr, or [str(e)] of the exception *)
  subprocess_run : nat -> list text -> Z -> text + (text * text);
  (* [socket.gethostbyname(name)]: the address, or [str(e)] *)
  gethostbyname : nat -> text -> text + text;
  (* [socket.create_connection((host, port), timeout)]: [str(e)] on failure *)
  create_connection : nat -> text -> Z -> float -> option text;
  (* [time.time()] *)
  time_time : nat -> float;
  (* [datetime.now(timezone.utc).isoformat()] *)
  utcnow_isoformat : nat -> text;
  (* [time.strftime(fmt)] *)
  time_strftime : nat -> text -> text;
  (* the error, if any, of opening and writing the file *)
  write_error : nat -> text -> option exn;
  (* the error, if any, of the system call of [time.sleep(secs)], which the
     platform refuses when the end of the sleep is past what its clock holds *)
  sleep_error : nat -> Z -> option exn
}.

Definition M (A : Type) : Type := list event -> Res A * list event.

Definition ret {A} (a : A) : M A := fun w => (Ok a, w).

Definition raise {A} (e : exn) : M A := fun w => (Raise e, w).

Definition lift {A} (r : Res A) : M A := fun w => (r, w).

Definition bind {A B} (m : M A) (f : A -> M B) : M B :=
  fun w =>
    match m w with
    | (Ok a, w') => f a w'
    | (Raise e, w') => (Raise e, w')
    end.

(** A call to the outside: logged, answered by the oracle. *)
Definition call {A} (ev : event) (answer : nat -> A) : M A :=
  fun w => (Ok (answer (length w)), ev :: w).

Declare Scope io_scope.
Delimit Scope io_scope with io.
Notation "'let*' x ':=' e 'in' k" := (bind e (fun x => k))
  (at level 10, x name, e at level 100, k at level 200) : io_scope.
Notation "e ';;' k" := (bind e (fun _ => k))
  (at level 100, k at level 200, right associativity) : io_scope.

(** [for x in l: out.append(f(x))] *)
Fixpoint for_each {A B} (f : A -> M B) (l : list A) : M (list B) :=
  match l with
  | [] => ret []
  | x :: l' =>
      bind (f x) (fun y => bind (for_each f l') (fun ys => ret (y :: ys)))
  end.

Definition keys : list string :=
  ["timestamp"; "host"; "dns_ip"; "dns_ok"; "ping_sent"; "ping_recv"; "ping_loss_pct";
   "ping_avg_rtt_ms"; "port"; "port_open"; "port_rtt_ms"; "traceroute_snippet"]%string.

(** The dict [base] of [save_results_csv]. *)
Definition base_row (r : Rec.t) : gmap string pyval :=
  <["traceroute_snippet"%string := PStr (Rec.traceroute_raw r)]>
  (<["ping_avg_rtt_ms"%string := of_opt PFloat (Ping.avg_rtt_ms (Rec.ping r))]>
  (<["ping_loss_pct"%string := of_opt PFloat (Ping.loss_pct (Rec.ping r))]>
  (<["ping_recv"%string := of_opt PInt (Ping.received (Rec.ping r))]>
  (<["ping_sent"%string := of_opt PInt (Ping.sent (Rec.ping r))]>
  (<["dns_ok"%string := PBool (Dns.success (Rec.dns r))]>
  (<["dns_ip"%string := of_opt PStr (Dns.ip (Rec.dns r))]>
  (<["host"%string := PStr (Rec.host r)]>
  (<["timestamp"%string := PStr (Rec.timestamp r)]> ∅)))))))).

(** [row = base.copy(); row.update({"port": ..., "port_open": ..., "port_rtt_ms": ...})] *)
Definition port_row (base : gmap string pyval) (p : Port.t) : gmap string pyval :=
  <["port_rtt_ms"%string := PFloat (Port.rtt_ms p)]>
  (<["port_open"%string := PBool (Port.open p)]>
  (<["port"%string := PInt (Port.port p)]> base)).

(** The rows one record adds to [rows]. *)
Definition record_rows (rows : list (gmap string pyval)) (r : Rec.t) : list (gmap string pyval) :=
  let base := base_row r in
  match Rec.ports r with
  | [] => rows ++ [base]
  | ps => fold_left (fun rows p => rows ++ [port_row base p]) ps rows
  end.

(** Lines 121-140 of [save_results_csv]: the list [rows]. *)
Definition build_rows (results : list Rec.t) : list (gmap string pyval) :=
  fold_left record_rows results [].

(** [csv.DictWriter._dict_to_list] with [extrasaction="raise"] and
    [restval=""]: a key outside the header is a [ValueError], a column
    without a key is written as the empty string. *)
Definition row_cells (fieldnames : list string) (row : gmap string pyval) : list pyval :=
  map (fun k => default (PStr []) (row !! k)) fieldnames.

Definition dict_to_list (fieldnames : list string) (row : gmap string pyval) : Res (list pyval) :=
  if forallb (fun kv => existsb (String.eqb (fst kv)) fieldnames) (map_to_list row)
  then Ok (row_cells fieldnames row)
  else Raise ValueError.

Fixpoint all_rows (fieldnames : list string) (rows : list (gmap string pyval)) : Res (list (list pyval)) :=
  match rows with
  | [] => Ok []
  | row :: rest =>
      let* cells := dict_to_list fieldnames row in
      let* more := all_rows fieldnames rest in
      Ok (cells :: more)
  end.

(** [tr["raw"][:400] + ("...[truncated]" if len(tr["raw"]) > 400 else "")] *)
Definition truncate_raw (raw : text) : text :=
  take 400 raw ++ (if (400 <? length raw)%nat then txt "...[truncated]" else []).

Section Program.
Variable o : Oracle.

Local Open Scope io_scope.

Definition run_subprocess (cmd : list text) (timeout : Z) : M (bool * text) :=
  let* r := call (EvSubprocess cmd timeout) (fun n => subprocess_run o n cmd timeout) in
  match r with
  | inr (out, err) => ret (true, out ++ err)
  | inl e => ret (false, txt "Error running " ++ join (txt " ") cmd ++ txt ": " ++ e)
  end.

Definition ping_host (host : text) (count : Z) (timeout : Z) : M Ping.t :=
  let cmd :=
    if IS_WINDOWS o then [txt "ping"; host; txt "-n"; str_of_Z count]
    else [txt "ping"; txt "-c"; str_of_Z count; host] in
  let* r := run_subprocess cmd (timeout + 2) in
  let '(ok, out) := r in
  let result := Ping.initial host out in
  if negb ok then ret result
  else lift (parse_ping out result).

Definition traceroute_host (host : text) (max_hops : Z) : M Trace.t :=
  let cmd :=
    if IS_WINDOWS o then [txt "tracert"; txt "-h"; str_of_Z max_hops; host]
    else [txt "traceroute"; txt "-m"; str_of_Z max_hops; host] in
  let* r := run_subprocess cmd 60 in
  let '(ok, out) := r in
  ret (Trace.mk host ok out).

Definition check_tcp_port (host : text) (port : Z) (timeout : float) : M Port.t :=
  let* start := call EvTime (time_time o) in
  let* r := call (EvConnect host port timeout)
                 (fun n => create_connection o n host port timeout) in
  let* t := call EvTime (time_time o) in
  let elapsed := fmul (fsub t start) (float_of_Z 1000) in
  match r with
  | None => ret (Port.mk host port true None elapsed)
  | Some e => ret (Port.mk host port false (Some e) elapsed)
  end.

Definition dns_lookup (name : text) : M Dns.t :=
  let* r := call (EvResolve name) (fun n => gethostbyname o n name) in
  match r with
  | inr ip => ret (Dns.mk name (Some ip) true None)
  | inl e => ret (Dns.mk name None false (Some e))
  end.

(** The body of the loop over the hosts in [run_diagnostics]. *)
Definition diagnose (ports : list Z) (ping_count : Z) (h : text) : M Rec.t :=
  call (EvPrint (txt "--- Running checks for: " ++ h ++ txt " ---")) (fun _ => tt);;
  let* t0 := call EvNow (utcnow_isoformat o) in
  let* dns := dns_lookup h in
  let* ping := ping_host h ping_count 4 in
  let* tr := traceroute_host h 20 in
  let* port_results := for_each (fun p => check_tcp_port h p (float_of_Z 2)) ports in
  ret (Rec.mk t0 h dns ping (truncate_raw (Trace.raw tr)) port_results).

Definition run_diagnostics (hosts : list text) (ports : option (list Z)) (ping_count : Z)
  : M (list Rec.t) :=
  let ports := match ports with Some ps => ps | None => [] end in
  for_each (diagnose ports ping_count) hosts.

Definition save_results_csv (results : list Rec.t) (filename : text) : M unit :=
  let rows := build_rows results in
  let* cells := lift (all_rows keys rows) in
  let* err := call (EvWriteCsv filename keys cells) (fun n => write_error o n filename) in
  match err with
  | Some e => raise e
  | None => call (EvPrint (txt "Saved results to " ++ filename)) (fun _ => tt)
  end.

(** [time.sleep(secs)] for an int: the length is first converted to a
    number of nanoseconds in 64 bits, an [OverflowError] past
    [sleep_max] seconds either way; a negative length is then a
    [ValueError]; the system call may fail. *)
Definition sleep (secs : Z) : M unit :=
  if (secs <? - sleep_max) || (sleep_max <? secs) then raise OverflowError
  else if secs <? 0 then raise ValueError
  else
    let* err := call (EvSleep secs) (fun n => sleep_error o n secs) in
    match err with
    | Some e => raise e
    | None => ret tt
    end.

(** One pass of the loop body of [monitor_hosts]. *)
Definition cycle (hosts : list text) (ports : option (list Z)) (interval : Z) : M unit :=
  let* results := run_diagnostics hosts ports 2 in
  save_results_csv results (txt "telemetry_log.csv");;
  let* now := call (EvStrftime (txt "%H:%M:%S")) (fun n => time_strftime o n (txt "%H:%M:%S")) in
  call (EvPrint (txt "[" ++ now ++ txt "] Logged results for "
                 ++ str_of_Z (Z.of_nat (length hosts)) ++ txt " hosts.")) (fun _ => tt);;
  sleep interval.

(** The [while] loop of [monitor_hosts], run for at most [fuel] tests of
    its condition; [None] when the loop is still running after them. *)
Fixpoint monitor_loop (fuel : nat) (hosts : list text) (ports : option (list Z))
         (interval duration : Z) (start : float) : M (option unit) :=
  match fuel with
  | O => ret None
  | S fuel' =>
      let* t := call EvTime (time_time o) in
      if float_lt_Z (fsub t start) duration then
        cycle hosts ports interval;;
        monitor_loop fuel' hosts ports interval duration start
      else ret (Some tt)
  end.

Definition monitor_hosts (fuel : nat) (hosts : list text) (ports : option (list Z))
           (interval duration : Z) : M (option unit) :=
  let* start := call EvTime (time_time o) in
  monitor_loop fuel hosts ports interval duration start.
End Program.

(** ** What a pattern matches

    [matches r s gs rest]: pattern [r] matches a prefix of [s] that leaves
    [rest], with the captured groups [gs] in order.  This is the set of all
    the ways [r] can match; [match_here] returns the first one in the order
    of backtracking. *)
Inductive matches : list atom -> text -> list text -> text -> Prop :=
| matches_nil s :
    matches [] s [] s
| matches_chr p r c s gs rest :
    p c = true -> matches r s gs rest ->
    matches (Chr p :: r) (c :: s) gs rest
| matches_plus p r w s gs rest :
    w <> [] -> forallb p w = true -> matches r s gs rest ->
    matches (Plus p :: r) (w ++ s) gs rest
| matches_group p r w s gs rest :
    w <> [] -> forallb p w = true -> matches r s gs rest ->
    matches (Group p :: r) (w ++ s) (w :: gs) rest
| matches_lazy p r w s gs rest :
    forallb p w = true -> matches r s gs rest ->
    matches (Lazy p :: r) (w ++ s) gs rest.

(** The classes of the groups of a pattern, in order. *)
Fixpoint group_classes (r : list atom) : list (ascii -> bool) :=
  match r with
  | [] => []
  | Group p :: r' => p :: group_classes r'
  | _ :: r' => group_classes r'
  end.

(** A non-empty run of characters of one class: what [p+] matches. *)
Definition run (p : ascii -> bool) (w : text) : Prop :=
  w <> [] /\ forallb p w = true.

(** The texts the first pattern matches somewhere, with what its groups can
    capture: digits, white space, the words as they are spelt in the
    pattern, and any text in between. *)
Definition unix_summary_shape (s : text) (g1 g2 g3 : text) : Prop :=
  exists pre w1 mid1 w2 mid2 w3 post,
    s = pre ++ g1 ++ w1 ++ txt "packets transmitted" ++ mid1 ++
        g2 ++ w2 ++ txt "received" ++ mid2 ++
        g3 ++ txt "%" ++ w3 ++ txt "packet loss" ++ post /\
    run digit g1 /\ run space w1 /\ run digit g2 /\ run space w2 /\
    run ascii_digit g3 /\ run space w3.

(** ** Values and inputs used in the statements *)

(** The floats [0.0], [12.3] and [50.0]. *)
Definition float_0 : float := S754_zero false.
Definition float_12_3 : float := S754_finite false 6924284427082138 (-49).
Definition float_50 : float := S754_finite false 7036874417766400 (-47).

Definition unix_example : text :=
  txt "4 packets transmitted, 4 received, 0% packet loss
rtt min/avg/max/mdev = 10.1/12.3/15.0/1.2 ms".

Definition linux_ping_output : text :=
  txt "PING 10.0.0.1 (10.0.0.1) 56(84) bytes of data.
64 bytes from 10.0.0.1: icmp_seq=1 ttl=64 time=10.1 ms
64 bytes from 10.0.0.1: icmp_seq=2 ttl=64 time=12.0 ms
64 bytes from 10.0.0.1: icmp_seq=3 ttl=64 time=15.0 ms
64 bytes from 10.0.0.1: icmp_seq=4 ttl=64 time=12.1 ms

--- 10.0.0.1 ping statistics ---
4 packets transmitted, 4 received, 0% packet loss, time 3004ms
rtt min/avg/max/mdev = 10.1/12.3/15.0/1.2 ms
".

Definition windows_example : text :=
  txt "Sent = 4, Received = 2, Lost = 2 (50% loss)".

Definition reply_example : text :=
  txt "Reply from 10.0.0.1: bytes=32 time=5ms TTL=64".

(** A Windows-style summary whose [Lost] counter has 310 digits. *)
Definition overflow_text : text :=
  txt "Sent = 1, Received = 1, Lost = 1" ++ repeat "0"%char 309.

(** A Unix-style summary whose first counter has 4301 digits. *)
Definition long_counter_text : text :=
  repeat "1"%char 4301 ++ txt " packets transmitted, 1 received, 0% packet loss".

(** A summary that reports no packet received, after a line with [ttl=]. *)
Definition zero_received_text : text :=
  txt "64 bytes from 10.0.0.1: icmp_seq=1 ttl=64 time=0.5 ms
4 packets transmitted, 0 received, 100% packet loss".

(** The same summary line in two spellings. *)
Definition summary_lower_case : text :=
  txt "4 packets transmitted, 4 received, 0% packet loss".
Definition summary_capitalised : text :=
  txt "4 Packets Transmitted, 4 Received, 0% Packet Loss".

(** A Windows-style summary of a run in which nothing was sent. *)
Definition zero_sent_text : text :=
  txt "Sent = 0, Received = 0, Lost = 0".


(** The rule for the success flag in the words of the data model: the
    marker counts only when the packet counters could not be parsed. *)
Definition success_rule_with_unparsed_counters (text : text) (res : Ping.t) : Prop :=
  Ping.success res = true <->
  ((exists n, Ping.received res = Some n /\ 0 < n) \/
   (Ping.sent res = None /\ Ping.received res = None /\
    exists pre post, lower text = pre ++ txt "ttl=" ++ post)).


(** An environment in which every process prints [out], every name
    resolves, every port is open and the [n]-th call reads the time
    [clock n]. *)
Definition sample_oracle (windows : bool) (out : text) (clock : nat -> Z) : Oracle := {|
  IS_WINDOWS := windows;
  subprocess_run := fun _ _ _ => inr (out, []);
  gethostbyname := fun _ _ => inr (txt "10.0.0.1");
  create_connection := fun _ _ _ _ => None;
  time_time := fun n => float_of_Z (clock n);
  utcnow_isoformat := fun _ => txt "2024-01-01T00:00:00+00:00";
  time_strftime := fun _ _ => txt "00:00:00";
  write_error := fun _ _ => None;
  sleep_error := fun _ _ => None
|}.

(** A clock that stands still, and one that advances by a second a call. *)
Definition still_clock (n : nat) : Z := 1700000000.
Definition ticking_clock (n : nat) : Z := 1700000000 + Z.of_nat n.

(** An environment in which no process can be started; the error text
    happens to contain [ttl=]. *)
Definition failing_oracle : Oracle := {|
  IS_WINDOWS := false;
  subprocess_run := fun _ _ _ => inl (txt "[Errno 2] No such file or directory: 'ttl=1'");
  gethostbyname := fun _ _ => inl (txt "[Errno -2] Name or service not known");
  create_connection := fun _ _ _ _ => Some (txt "timed out");
  time_time := fun n => float_of_Z (Z.of_nat n);
  utcnow_isoformat := fun _ => txt "2024-01-01T00:00:00+00:00";
  time_strftime := fun _ _ => txt "00:00:00";
  write_error := fun _ _ => None;
  sleep_error := fun _ _ => None
|}.


(** The float [100.0]. *)
Definition float_100 : float := S754_finite false 7036874417766400 (-46).

(** ** The rows of the file, as the serializer is described

    One flat row: the nine columns of the record around the three columns
    of a port, in the order of the header. *)
Definition flat_row (r : Rec.t) (port port_open port_rtt_ms : pyval) : list pyval :=
  [PStr (Rec.timestamp r); PStr (Rec.host r);
   of_opt PStr (Dns.ip (Rec.dns r)); PBool (Dns.success (Rec.dns r));
   of_opt PInt (Ping.sent (Rec.ping r)); of_opt PInt (Ping.received (Rec.ping r));
   of_opt PFloat (Ping.loss_pct (Rec.ping r)); of_opt PFloat (Ping.avg_rtt_ms (Rec.ping r));
   port; port_open; port_rtt_ms;
   PStr (Rec.traceroute_raw r)].

(** One row with empty port columns for a record without ports, one row
    per port otherwise. *)
Definition record_cells (r : Rec.t) : list (list pyval) :=
  match Rec.ports r with
  | [] => [flat_row r (PStr []) (PStr []) (PStr [])]
  | ps => map (fun p => flat_row r (PInt (Port.port p)) (PBool (Port.open p))
                                 (PFloat (Port.rtt_ms p))) ps
  end.

(** A record with the two ports 22 and 443, and one without ports. *)
Definition two_ports_record : Rec.t :=
  Rec.mk (txt "2024-01-01T00:00:00+00:00") (txt "10.0.0.1")
    (Dns.mk (txt "10.0.0.1") (Some (txt "10.0.0.1")) true None)
    (Ping.mk (txt "10.0.0.1") true unix_example (Some 4) (Some 4) (Some float_0) (Some float_12_3))
    (txt "traceroute to 10.0.0.1")
    [Port.mk (txt "10.0.0.1") 22 true None float_12_3;
     Port.mk (txt "10.0.0.1") 443 false (Some (txt "timed out")) float_50].

Definition no_port_record : Rec.t :=
  Rec.mk (Rec.timestamp two_ports_record) (Rec.host two_ports_record)
    (Rec.dns two_ports_record) (Rec.ping two_ports_record)
    (Rec.traceroute_raw two_ports_record) [].

(** ** The command line

    [main_cli] after [parser.parse_args()]: the parsed arguments are the
    input.  [--telemetry] takes two ints, so that [args.telemetry] is
    [None] or a list of two, which is true as a condition whatever the two
    are. *)

Module Args.
Record t : Type := mk {
  hosts : list text;
  ports : list Z;
  count : Z;
  out : text;
  telemetry : option (Z * Z)
}.
End Args.

Definition main_cli (o : Oracle) (fuel : nat) (args : Args.t) : M (option unit) :=
  match Args.telemetry args with
  | Some (interval, duration) =>
      monitor_hosts o fuel (Args.hosts args) (Some (Args.ports args)) interval duration
  | None =>
      bind (run_diagnostics o (Args.hosts args) (Some (Args.ports args)) (Args.count args))
        (fun results =>
           bind (save_results_csv o results (Args.out args)) (fun _ => ret (Some tt)))
  end.

(** ** Notions used in the further statements *)

(** The number of characters of a class in a text. *)
Definition count_chars (p : ascii -> bool) (s : text) : nat :=
  length (List.filter p s).

(** The command lines of the two utilities. *)
Definition ping_cmd (windows : bool) (host : text) (count : Z) : list text :=
  if windows then [txt "ping"; host; txt "-n"; str_of_Z count]
  else [txt "ping"; txt "-c"; str_of_Z count; host].

Definition traceroute_cmd (windows : bool) (host : text) (max_hops : Z) : list text :=
  if windows then [txt "tracert"; txt "-h"; str_of_Z max_hops; host]
  else [txt "traceroute"; txt "-m"; str_of_Z max_hops; host].

(** The calls of one port probe, in the order they are made. *)
Definition port_events (h : text) (p : Z) : list event :=
  [EvTime; EvConnect h p (float_of_Z 2); EvTime].

(** The calls made for one host up to and including the ping, and the
    calls made after it. *)
Definition events_to_ping (windows : bool) (ping_count : Z) (h : text) : list event :=
  [EvPrint (txt "--- Running checks for: " ++ h ++ txt " ---"); EvNow; EvResolve h;
   EvSubprocess (ping_cmd windows h ping_count) 6].

Definition events_after_ping (windows : bool) (ports : list Z) (h : text) : list event :=
  EvSubprocess (traceroute_cmd windows h 20) 60 :: flat_map (port_events h) ports.

Definition host_events (windows : bool) (ports : list Z) (ping_count : Z) (h : text)
  : list event :=
  events_to_ping windows ping_count h ++ events_after_ping windows ports h.

(** The rows a record gives. *)
Definition rows_of_record (r : Rec.t) : nat := Nat.max 1 (length (Rec.ports r)).

(** A summary with a fractional loss, as newer ping utilities print it. *)
Definition fractional_loss_text : text :=
  txt "3 packets transmitted, 2 received, 33.3333% packet loss, time 2003ms".

(** An rtt line whose average is no number, next to a Windows average. *)
Definition bad_rtt_text : text :=
  txt "rtt min/avg/max/mdev = 10.1/1.2.3/15.0/1.2 ms
Average = 5ms".


(** The float [3333.0]. *)
Definition float_3333 : float := S754_finite false 7329344510754816 (-41).

(** What holds of every record [run_diagnostics] returns for the ports
    asked for: the parts are about the host of the record, failures are
    data ([success] and [open] say whether there is an address or an
    error), there is one port result per port in order, and the traceroute
    text is at most 400 characters and the marker long. *)
Definition record_ok (ports : list Z) (r : Rec.t) : Prop :=
  Dns.name (Rec.dns r) = Rec.host r /\
  Ping.host (Rec.ping r) = Rec.host r /\
  (Dns.success (Rec.dns r) = true <-> is_Some (Dns.ip (Rec.dns r))) /\
  (Dns.success (Rec.dns r) = true <-> Dns.error (Rec.dns r) = None) /\
  map Port.port (Rec.ports r) = ports /\
  Forall (fun p => Port.host p = Rec.host r /\
                   (Port.open p = true <-> Port.error p = None)) (Rec.ports r) /\
  (length (Rec.traceroute_raw r) <= 414)%nat.

(** The names of the files written in a trace. *)
Definition written_files (tr : list event) : list text :=
  flat_map (fun ev => match ev with
                      | EvWriteCsv filename _ _ => [filename]
                      | _ => []
                      end) tr.

(** A text ends a run of digits: it is empty or starts with another
    character. *)
Definition no_digit_ahead (s : text) : Prop :=
  match s with
  | [] => True
  | c :: _ => digit c = false
  end.

(** The three lines of a Windows ping summary. *)
Definition windows_ping_output : text :=
  txt "
Pinging 10.0.0.1 with 32 bytes of data:
Reply from 10.0.0.1: bytes=32 time=5ms TTL=64
Request timed out.

Ping statistics for 10.0.0.1:
    Packets: Sent = 2, Received = 1, Lost = 1 (50% loss),
Approximate round trip times in milli-seconds:
    Minimum = 5ms, Maximum = 5ms, Average = 5ms
".

(** * Properties *)

(** ** Characters *)

Lemma is_char_eq a c : is_char a c = true <-> a = c.
Proof.
  unfold is_char, ord. rewrite N.eqb_eq. split; [|now intros ->].
  intros H. rewrite <- (ascii_N_embedding a), <- (ascii_N_embedding c). now rewrite H.
Qed.

Lemma starts_with_spec sub s :
  starts_with sub s = true <-> exists post, s = sub ++ post.
Proof.
  revert s. induction sub as [|a sub IH]; intros s; simpl.
  - split; eauto.
  - destruct s as [|c s].
    + split; [discriminate | intros [post H]; discriminate].
    + rewrite andb_true_iff, is_char_eq, IH. split.
      * intros [-> [post ->]]. eauto.
      * intros [post H]. injection H as -> ->. eauto.
Qed.

Lemma contains_spec sub s :
  contains sub s = true <-> exists pre post, s = pre ++ sub ++ post.
Proof.
  induction s as [|c s IH]; simpl.
  - rewrite orb_false_r, starts_with_spec. split.
    + intros [post H]. exists [], post. exact H.
    + intros [pre [post H]]. destruct pre; simpl in H; [eauto | discriminate].
  - rewrite orb_true_iff, starts_with_spec, IH. split.
    + intros [[post H] | [pre [post H]]].
      * exists [], post. exact H.
      * exists (c :: pre), post. simpl. now rewrite H.
    + intros [pre [post H]]. destruct pre as [|c' pre]; simpl in H.
      * left. eauto.
      * right. injection H as -> ->. eauto.
Qed.

(** ** The matcher finds a match exactly when there is one *)

Section RepetitionFacts.
Context {R : Type}.
Variable p : ascii -> bool.

Lemma greedy_star_sound (k : text -> option R) s : forall x,
  greedy_star p k s = Some x ->
  exists w s', s = w ++ s' /\ forallb p w = true /\ k s' = Some x.
Proof.
  induction s as [|c s IH]; intros x; simpl.
  - intros H. exists [], []. auto.
  - destruct (p c) eqn:Hc.
    + destruct (greedy_star p k s) as [y|] eqn:Hg.
      * intros [= <-]. destruct (IH _ eq_refl) as (w & s' & -> & Hw & Hk).
        exists (c :: w), s'. simpl. rewrite Hc, Hw. auto.
      * intros H. exists [], (c :: s). auto.
    + intros H. exists [], (c :: s). auto.
Qed.

Lemma greedy_star_fallback (k : text -> option R) s :
  is_Some (k s) -> is_Some (greedy_star p k s).
Proof.
  intros H. destruct s as [|c s]; simpl; [exact H|].
  destruct (p c); [|exact H].
  destruct (greedy_star p k s); [eauto | exact H].
Qed.

Lemma greedy_star_complete (k : text -> option R) w s' :
  forallb p w = true -> is_Some (k s') -> is_Some (greedy_star p k (w ++ s')).
Proof.
  induction w as [|c w IH]; intros Hw Hk.
  - now apply greedy_star_fallback.
  - simpl in Hw. apply andb_true_iff in Hw as [Hc Hw]. simpl. rewrite Hc.
    destruct (IH Hw Hk) as [y ->]. eauto.
Qed.

Lemma greedy_plus_sound (k : text -> option R) s x :
  greedy_plus p k s = Some x ->
  exists w s', w <> [] /\ s = w ++ s' /\ forallb p w = true /\ k s' = Some x.
Proof.
  destruct s as [|c s]; simpl; [discriminate|].
  destruct (p c) eqn:Hc; [|discriminate].
  intros H. destruct (greedy_star_sound _ _ _ H) as (w & s' & -> & Hw & Hk).
  exists (c :: w), s'. simpl. rewrite Hc, Hw. repeat split; [discriminate | exact Hk].
Qed.

Lemma greedy_plus_complete (k : text -> option R) w s' :
  w <> [] -> forallb p w = true -> is_Some (k s') ->
  is_Some (greedy_plus p k (w ++ s')).
Proof.
  destruct w as [|c w]; [congruence|]. intros _ Hw Hk.
  simpl in Hw. apply andb_true_iff in Hw as [Hc Hw]. simpl. rewrite Hc.
  now apply greedy_star_complete.
Qed.

Lemma lazy_star_sound (k : text -> option R) s : forall x,
  lazy_star p k s = Some x ->
  exists w s', s = w ++ s' /\ forallb p w = true /\ k s' = Some x.
Proof.
  induction s as [|c s IH]; intros x; simpl.
  - destruct (k []) eqn:Hk; [|discriminate]. intros [= <-]. exists [], []. auto.
  - destruct (k (c :: s)) eqn:Hk.
    + intros [= <-]. exists [], (c :: s). auto.
    + destruct (p c) eqn:Hc; [|discriminate]. intros H.
      destruct (IH _ H) as (w & s' & -> & Hw & Hk').
      exists (c :: w), s'. simpl. rewrite Hc, Hw. auto.
Qed.

Lemma lazy_star_complete (k : text -> option R) w : forall s',
  forallb p w = true -> is_Some (k s') -> is_Some (lazy_star p k (w ++ s')).
Proof.
  induction w as [|c w IH]; intros s' Hw Hk; simpl.
  - destruct s'; simpl; destruct Hk as [y ->]; eauto.
  - simpl in Hw. apply andb_true_iff in Hw as [Hc Hw].
    destruct (k (c :: w ++ s')); [eauto|]. rewrite Hc. now apply IH.
Qed.
End RepetitionFacts.

(** The two marks of a group give back the text it matched. *)
Lemma slice_app (w s : text) : slice (w ++ s, s) = w.
Proof.
  unfold slice. simpl. rewrite length_app.
  replace (length w + length s - length s)%nat with (length w) by lia.
  apply take_app_length.
Qed.

Lemma match_here_sound r : forall marks s out,
  match_here r marks s = Some out ->
  exists gs rest, matches r s gs rest /\ out = map slice (rev marks) ++ gs.
Proof.
  induction r as [|a r IH]; intros marks s out; simpl.
  - intros [= <-]. exists [], s. split; [constructor | now rewrite app_nil_r].
  - destruct a as [p|p|p|p].
    + destruct s as [|c s]; [discriminate|]. destruct (p c) eqn:Hc; [|discriminate].
      intros H. destruct (IH _ _ _ H) as (gs & rest & Hm & ->).
      exists gs, rest. split; [now constructor | reflexivity].
    + intros H. apply greedy_plus_sound in H as (w & s' & Hne & -> & Hw & H).
      destruct (IH _ _ _ H) as (gs & rest & Hm & ->).
      exists gs, rest. split; [now constructor | reflexivity].
    + intros H. apply greedy_plus_sound in H as (w & s' & Hne & -> & Hw & H).
      destruct (IH _ _ _ H) as (gs & rest & Hm & ->).
      exists (w :: gs), rest. split; [now constructor|].
      simpl. rewrite map_app, <- app_assoc. simpl. now rewrite slice_app.
    + intros H. apply lazy_star_sound in H as (w & s' & -> & Hw & H).
      destruct (IH _ _ _ H) as (gs & rest & Hm & ->).
      exists gs, rest. split; [now constructor | reflexivity].
Qed.

Lemma match_here_complete r s gs rest :
  matches r s gs rest -> forall marks, is_Some (match_here r marks s).
Proof.
  induction 1 as [s | p r c s gs rest Hc _ IH | p r w s gs rest Hne Hw _ IH
                 | p r w s gs rest Hne Hw _ IH | p r w s gs rest Hw _ IH];
    intros marks; simpl.
  - eauto.
  - rewrite Hc. apply IH.
  - apply greedy_plus_complete; auto.
  - apply greedy_plus_complete; auto.
  - apply lazy_star_complete; auto.
Qed.

Lemma re_search_sound r s m :
  re_search r s = Some m ->
  exists pre s' rest, s = pre ++ s' /\ matches r s' m rest.
Proof.
  induction s as [|c s IH]; simpl.
  - destruct (match_here r [] []) eqn:H; [|discriminate]. intros [= <-].
    apply match_here_sound in H as (gs & rest & Hm & ->). exists [], [], rest. auto.
  - destruct (match_here r [] (c :: s)) eqn:H.
    + intros [= <-]. apply match_here_sound in H as (gs & rest & Hm & ->).
      exists [], (c :: s), rest. auto.
    + intros H'. destruct (IH H') as (pre & s' & rest & -> & Hm).
      exists (c :: pre), s', rest. auto.
Qed.

Lemma re_search_complete r pre s gs rest :
  matches r s gs rest -> is_Some (re_search r (pre ++ s)).
Proof.
  intros Hm. induction pre as [|c pre IH]; simpl.
  - destruct (match_here_complete _ _ _ _ Hm []) as [y Hy].
    destruct s; simpl; rewrite Hy; eauto.
  - destruct (match_here r [] (c :: pre ++ s)); eauto.
Qed.

(** ** What the groups of a match hold *)

Lemma matches_groups r s gs rest :
  matches r s gs rest -> Forall2 (fun p g => run p g) (group_classes r) gs.
Proof.
  induction 1; simpl; auto. constructor; [split|]; assumption.
Qed.

Lemma re_search_groups r s m :
  re_search r s = Some m -> Forall2 (fun p g => run p g) (group_classes r) m.
Proof.
  intros H. apply re_search_sound in H as (pre & s' & rest & _ & Hm).
  eapply matches_groups, Hm.
Qed.

Lemma three_groups r p1 p2 p3 s m :
  group_classes r = [p1; p2; p3] -> re_search r s = Some m ->
  run p1 (group m 1) /\ run p2 (group m 2) /\ run p3 (group m 3).
Proof.
  intros Hr H. apply re_search_groups in H. rewrite Hr in H.
  inversion H as [|? g1 ? m1 H1 H']; subst. inversion H' as [|? g2 ? m2 H2 H'']; subst.
  inversion H'' as [|? g3 ? m3 H3 H''']; subst. auto.
Qed.

Lemma one_group r p1 s m :
  group_classes r = [p1] -> re_search r s = Some m -> run p1 (group m 1).
Proof.
  intros Hr H. apply re_search_groups in H. rewrite Hr in H.
  inversion H as [|? g1 ? m1 H1 H']; subst. exact H1.
Qed.

Lemma unix_summary_groups s m :
  re_search unix_summary_re s = Some m ->
  run digit (group m 1) /\ run digit (group m 2) /\ run digit (group m 3).
Proof. apply three_groups. reflexivity. Qed.

Lemma windows_summary_groups s m :
  re_search windows_summary_re s = Some m ->
  run digit (group m 1) /\ run digit (group m 2) /\ run digit (group m 3).
Proof. apply three_groups. reflexivity. Qed.

(** ** Conversions of captured text *)

Lemma py_int_run g :
  run digit g -> too_long g = false -> py_int g = Ok (digits_value g).
Proof.
  intros [Hne Hd] Hl. unfold py_int, is_digits.
  destruct g; [congruence|]. now rewrite Hd, Hl.
Qed.

Lemma py_int_long g :
  run digit g -> too_long g = true -> py_int g = Raise ValueError.
Proof.
  intros [Hne Hd] Hl. unfold py_int, is_digits.
  destruct g; [congruence|]. now rewrite Hd, Hl.
Qed.

Lemma digit_not_dot c : digit c = true -> is_char "." c = false.
Proof.
  unfold digit, in_range, is_char. intros H.
  apply andb_true_iff in H as [H _]. apply N.leb_le in H.
  apply N.eqb_neq. change (ord ".") with 46%N. lia.
Qed.

Lemma split_dot_digits g : forallb digit g = true -> split_dot g = (g, None).
Proof.
  induction g as [|c g IH]; simpl; [reflexivity|].
  intros H. apply andb_true_iff in H as [Hc Hg].
  rewrite (digit_not_dot _ Hc), (IH Hg). reflexivity.
Qed.

(** [float] of a digit string is its value, rounded. *)
Lemma py_float_run g :
  run digit g ->
  py_float g = Ok (fdiv (exact_of_Z (digits_value g)) (exact_of_Z 1)).
Proof.
  intros [Hne Hd]. unfold py_float. rewrite (split_dot_digits _ Hd).
  rewrite app_nil_r, Hd. simpl forallb. simpl length at 2.
  destruct g; [congruence|]. reflexivity.
Qed.

(** ** The literal floats *)

(** [float_12_3] is a normal float within half a unit in the last place of 12.3. *)
Lemma float_12_3_nearest :
  valid_binary fprec femax float_12_3 = true /\
  Z.abs (10 * 6924284427082138 - 123 * 2 ^ 49) <= 5.
Proof. split; [reflexivity | vm_compute; discriminate]. Qed.

(** [float_50] is exactly 50. *)
Lemma float_50_exact :
  valid_binary fprec femax float_50 = true /\ 7036874417766400 = 50 * 2 ^ 47.
Proof. split; reflexivity. Qed.

(** ** The parts of the parser *)

Lemma parse_counters_unix text result m :
  re_search unix_summary_re text = Some m ->
  too_long (group m 1) = false -> too_long (group m 2) = false ->
  parse_counters text result =
    Ok (Ping.update_counters result
          (Some (digits_value (group m 1))) (Some (digits_value (group m 2)))
          (Some (fdiv (exact_of_Z (digits_value (group m 3))) (exact_of_Z 1)))).
Proof.
  intros H L1 L2. unfold parse_counters. rewrite H.
  apply unix_summary_groups in H as (H1 & H2 & H3).
  rewrite (py_int_run _ H1 L1), (py_int_run _ H2 L2), (py_float_run _ H3). reflexivity.
Qed.

Lemma parse_counters_unix_long text result m :
  re_search unix_summary_re text = Some m ->
  too_long (group m 1) || too_long (group m 2) = true ->
  parse_counters text result = Raise ValueError.
Proof.
  intros H L. unfold parse_counters. rewrite H.
  apply unix_summary_groups in H as (H1 & H2 & H3).
  destruct (too_long (group m 1)) eqn:L1.
  - now rewrite (py_int_long _ H1 L1).
  - rewrite (py_int_run _ H1 L1). simpl in L. now rewrite (py_int_long _ H2 L).
Qed.

Lemma parse_counters_unix_ok text result m r1 :
  re_search unix_summary_re text = Some m ->
  parse_counters text result = Ok r1 ->
  too_long (group m 1) = false /\ too_long (group m 2) = false.
Proof.
  intros H Hr. destruct (too_long (group m 1) || too_long (group m 2)) eqn:L.
  - rewrite (parse_counters_unix_long _ _ _ H L) in Hr. discriminate.
  - now apply orb_false_iff in L.
Qed.

Lemma parse_counters_windows text result m :
  re_search unix_summary_re text = None ->
  re_search windows_summary_re text = Some m ->
  too_long (group m 1) = false -> too_long (group m 2) = false ->
  too_long (group m 3) = false ->
  let sent := digits_value (group m 1) in
  let received := digits_value (group m 2) in
  let lost := digits_value (group m 3) in
  parse_counters text result =
    if sent =? 0 then Ok (Ping.update_counters result (Some sent) (Some received) None)
    else if is_infinite (fdiv (exact_of_Z lost) (exact_of_Z sent)) then Raise OverflowError
    else Ok (Ping.update_counters result (Some sent) (Some received)
               (Some (fmul (fdiv (exact_of_Z lost) (exact_of_Z sent)) (float_of_Z 100)))).
Proof.
  intros Hu H L1 L2 L3. unfold parse_counters. rewrite Hu, H.
  apply windows_summary_groups in H as (H1 & H2 & H3).
  rewrite (py_int_run _ H1 L1), (py_int_run _ H2 L2), (py_int_run _ H3 L3). simpl.
  destruct (digits_value (group m 1) =? 0) eqn:Hz; [reflexivity|].
  unfold int_true_div. rewrite Hz.
  destruct (is_infinite _); reflexivity.
Qed.

Lemma parse_counters_windows_long text result m :
  re_search unix_summary_re text = None ->
  re_search windows_summary_re text = Some m ->
  too_long (group m 1) || too_long (group m 2) || too_long (group m 3) = true ->
  parse_counters text result = Raise ValueError.
Proof.
  intros Hu H L. unfold parse_counters. rewrite Hu, H.
  apply windows_summary_groups in H as (H1 & H2 & H3).
  destruct (too_long (group m 1)) eqn:L1; [now rewrite (py_int_long _ H1 L1)|].
  rewrite (py_int_run _ H1 L1).
  destruct (too_long (group m 2)) eqn:L2; [now rewrite (py_int_long _ H2 L2)|].
  rewrite (py_int_run _ H2 L2). simpl in L. now rewrite (py_int_long _ H3 L).
Qed.

Lemma parse_counters_windows_ok text result m r :
  re_search unix_summary_re text = None ->
  re_search windows_summary_re text = Some m ->
  parse_counters text result = r -> r <> Raise ValueError ->
  too_long (group m 1) = false /\ too_long (group m 2) = false /\
  too_long (group m 3) = false.
Proof.
  intros Hu H Hr Hne.
  destruct (too_long (group m 1) || too_long (group m 2) || too_long (group m 3)) eqn:L.
  - rewrite (parse_counters_windows_long _ _ _ Hu H L) in Hr. congruence.
  - apply orb_false_iff in L as [L L3]. apply orb_false_iff in L as [L1 L2]. auto.
Qed.

Lemma parse_counters_none text result :
  re_search unix_summary_re text = None ->
  re_search windows_summary_re text = None ->
  parse_counters text result = Ok result.
Proof. intros Hu Hw. unfold parse_counters. now rewrite Hu, Hw. Qed.

Lemma try_set_avg_rtt_fields g result :
  let res := try_set_avg_rtt g result in
  Ping.host res = Ping.host result /\ Ping.success res = Ping.success result /\
  Ping.raw res = Ping.raw result /\ Ping.sent res = Ping.sent result /\
  Ping.received res = Ping.received result /\ Ping.loss_pct res = Ping.loss_pct result.
Proof. unfold try_set_avg_rtt. destruct (py_float g); simpl; auto 10. Qed.

Lemma parse_avg_rtt_fields text result :
  let res := parse_avg_rtt text result in
  Ping.host res = Ping.host result /\ Ping.success res = Ping.success result /\
  Ping.raw res = Ping.raw result /\ Ping.sent res = Ping.sent result /\
  Ping.received res = Ping.received result /\ Ping.loss_pct res = Ping.loss_pct result.
Proof.
  unfold parse_avg_rtt.
  destruct (re_search rtt_re text); [apply try_set_avg_rtt_fields|].
  destruct (re_search average_re text); [apply try_set_avg_rtt_fields|].
  simpl; auto 10.
Qed.

Lemma parse_success_fields text result :
  let res := parse_success text result in
  Ping.host res = Ping.host result /\ Ping.raw res = Ping.raw result /\
  Ping.sent res = Ping.sent result /\ Ping.received res = Ping.received result /\
  Ping.loss_pct res = Ping.loss_pct result /\ Ping.avg_rtt_ms res = Ping.avg_rtt_ms result.
Proof.
  unfold parse_success.
  destruct (received_positive result); [simpl; auto 10|].
  destruct (contains _ _); simpl; auto 10.
Qed.

(** The counters of the result are the ones [parse_counters] has set. *)
Lemma parse_ping_counters text result r1 :
  parse_counters text result = Ok r1 ->
  exists res, parse_ping text result = Ok res /\
    Ping.sent res = Ping.sent r1 /\ Ping.received res = Ping.received r1 /\
    Ping.loss_pct res = Ping.loss_pct r1.
Proof.
  intros H. unfold parse_ping. rewrite H. simpl. eexists. split; [reflexivity|].
  destruct (parse_success_fields text (parse_avg_rtt text r1)) as (_ & _ & -> & -> & -> & _).
  destruct (parse_avg_rtt_fields text r1) as (_ & _ & _ & -> & -> & ->). auto.
Qed.

Lemma parse_ping_raise text result e :
  parse_counters text result = Raise e -> parse_ping text result = Raise e.
Proof. intros H. unfold parse_ping. now rewrite H. Qed.

(** The parser fails in two ways: with the [ValueError] of [int] on a
    counter of more than 4300 digits, and with the [OverflowError] of a
    Windows-style summary whose [Lost / Sent] is too large for a float. *)
Lemma parse_ping_raise_cases text result e :
  parse_ping text result = Raise e ->
  (e = ValueError /\
   ((exists m, re_search unix_summary_re text = Some m /\
       too_long (group m 1) || too_long (group m 2) = true) \/
    (re_search unix_summary_re text = None /\
     exists m, re_search windows_summary_re text = Some m /\
       too_long (group m 1) || too_long (group m 2) || too_long (group m 3) = true))) \/
  (e = OverflowError /\
   re_search unix_summary_re text = None /\
   exists m, re_search windows_summary_re text = Some m /\
     too_long (group m 1) || too_long (group m 2) || too_long (group m 3) = false /\
     digits_value (group m 1) <> 0 /\
     is_infinite (fdiv (exact_of_Z (digits_value (group m 3)))
                       (exact_of_Z (digits_value (group m 1)))) = true).
Proof.
  unfold parse_ping. destruct (parse_counters text result) as [r1|e'] eqn:Hc; [discriminate|].
  simpl. intros [= <-].
  destruct (re_search unix_summary_re text) as [m|] eqn:Hu.
  - destruct (too_long (group m 1) || too_long (group m 2)) eqn:L.
    + rewrite (parse_counters_unix_long _ _ _ Hu L) in Hc. injection Hc as <-.
      left. split; [reflexivity|]. left. eauto.
    + apply orb_false_iff in L as [L1 L2].
      rewrite (parse_counters_unix _ _ _ Hu L1 L2) in Hc. discriminate.
  - destruct (re_search windows_summary_re text) as [m|] eqn:Hw.
    + destruct (too_long (group m 1) || too_long (group m 2) || too_long (group m 3)) eqn:L.
      * rewrite (parse_counters_windows_long _ _ _ Hu Hw L) in Hc. injection Hc as <-.
        left. split; [reflexivity|]. right. eauto.
      * pose proof L as L'. apply orb_false_iff in L' as [L' L3].
        apply orb_false_iff in L' as [L1 L2].
        rewrite (parse_counters_windows _ _ _ Hu Hw L1 L2 L3) in Hc. cbv zeta in Hc.
        destruct (digits_value (group m 1) =? 0) eqn:Hz; [discriminate|].
        destruct (is_infinite _) eqn:Hi; [|discriminate].
        injection Hc as <-. right. repeat split. exists m. repeat split; auto.
        now apply Z.eqb_neq.
    + rewrite (parse_counters_none _ _ Hu Hw) in Hc. discriminate.
Qed.

(** When no pattern matches and there is no [ttl=], nothing is set. *)
Lemma parse_ping_no_match h text :
  re_search unix_summary_re text = None ->
  re_search windows_summary_re text = None ->
  re_search rtt_re text = None ->
  re_search average_re text = None ->
  contains (txt "ttl=") (lower text) = false ->
  parse_ping text (Ping.initial h text) = Ok (Ping.mk h false text None None None None).
Proof.
  intros Hu Hw Hr Ha Ht. unfold parse_ping. rewrite (parse_counters_none _ _ Hu Hw).
  cbn [res_bind]. unfold parse_avg_rtt. rewrite Hr, Ha.
  unfold parse_success, received_positive, Ping.initial. cbn [Ping.received].
  rewrite Ht. reflexivity.
Qed.

(** On empty output nothing is set. *)
Lemma parse_ping_empty h :
  parse_ping [] (Ping.initial h []) = Ok (Ping.mk h false [] None None None None).
Proof. reflexivity. Qed.

(** ** Claims about the parser *)

(** C1.  The parser is not total.  On a ping output whose Windows-style
    summary reads [Sent = 1, Received = 1, Lost = 1000...0] with 310 digits,
    [ping_host] raises [OverflowError]: the int division [lost / sent] has no
    float result.  The process was run and the error is not caught, so no
    result is returned. *)
Theorem ping_host_overflow :
  fst (ping_host (sample_oracle true overflow_text ticking_clock) (txt "10.0.0.1") 4 4 [])
    = Raise OverflowError /\
  fst (ping_host (sample_oracle false overflow_text ticking_clock) (txt "10.0.0.1") 4 4 [])
    = Raise OverflowError.
Proof. split; vm_compute; reflexivity. Qed.

(** C2, as stated, fails in the code.  [int] refuses a digit string of more
    than 4300 characters with a [ValueError], and nothing catches it: on a
    text that matches the Unix summary pattern with such a counter the
    parser raises instead of extracting the three numbers.  A summary whose
    first counter has 4301 digits makes [ping_host] raise on both
    platforms. *)
Theorem unix_counter_too_long :
  (forall text m result,
     re_search unix_summary_re text = Some m ->
     too_long (group m 1) || too_long (group m 2) = true ->
     parse_ping text result = Raise ValueError) /\
  (exists m, re_search unix_summary_re long_counter_text = Some m /\
     length (group m 1) = 4301%nat /\ group m 2 = txt "1" /\ group m 3 = txt "0") /\
  fst (ping_host (sample_oracle true long_counter_text ticking_clock) (txt "10.0.0.1") 4 4 [])
    = Raise ValueError /\
  fst (ping_host (sample_oracle false long_counter_text ticking_clock) (txt "10.0.0.1") 4 4 [])
    = Raise ValueError.
Proof.
  split; [|split; [|split; vm_compute; reflexivity]].
  - intros text m result H L. apply parse_ping_raise.
    exact (parse_counters_unix_long _ _ _ H L).
  - eexists. split; [vm_compute; reflexivity|].
    split; [vm_compute; reflexivity|]. split; reflexivity.
Qed.

Lemma unix_counter_too_long_witness :
  parse_ping long_counter_text (Ping.initial [] long_counter_text) = Raise ValueError.
Proof.
  apply (proj1 unix_counter_too_long long_counter_text
           [repeat "1"%char 4301; txt "1"; txt "0"]).
  - vm_compute. reflexivity.
  - vm_compute. reflexivity.
Defined.

(** C3, as stated, fails in the code.  When the Unix pattern is absent,
    the Windows pattern matches and [sent] is not 0, the loss is computed
    as [(lost / sent) * 100] on integers; when the quotient is too large
    for a float the division raises [OverflowError], nothing catches it,
    and no loss is derived: the parser raises.  The text
    [Sent = 1, Received = 1, Lost = 1] followed by 309 zeros is such an
    input. *)
Theorem windows_loss_overflow :
  (forall text m result,
     re_search unix_summary_re text = None ->
     re_search windows_summary_re text = Some m ->
     too_long (group m 1) || too_long (group m 2) || too_long (group m 3) = false ->
     digits_value (group m 1) <> 0 ->
     is_infinite (fdiv (exact_of_Z (digits_value (group m 3)))
                       (exact_of_Z (digits_value (group m 1)))) = true ->
     parse_ping text result = Raise OverflowError) /\
  re_search unix_summary_re overflow_text = None /\
  re_search windows_summary_re overflow_text
    = Some [txt "1"; txt "1"; txt "1" ++ repeat "0"%char 309] /\
  (forall h, parse_ping overflow_text (Ping.initial h overflow_text) = Raise OverflowError).
Proof.
  split; [|split; [vm_compute; reflexivity|split; [vm_compute; reflexivity|]]].
  - intros text m result Hu Hw L Hz Hi. apply parse_ping_raise.
    apply orb_false_iff in L as [L L3]. apply orb_false_iff in L as [L1 L2].
    pose proof (parse_counters_windows text result m Hu Hw L1 L2 L3) as Hc.
    cbv zeta in Hc. apply Z.eqb_neq in Hz. now rewrite Hz, Hi in Hc.
  - intros h. vm_compute. reflexivity.
Qed.

Lemma windows_loss_overflow_witness :
  parse_ping overflow_text (Ping.initial [] overflow_text) = Raise OverflowError.
Proof.
  apply (proj1 windows_loss_overflow overflow_text
           [txt "1"; txt "1"; txt "1" ++ repeat "0"%char 309]).
  - vm_compute. reflexivity.
  - vm_compute. reflexivity.
  - vm_compute. reflexivity.
  - vm_compute. discriminate.
  - vm_compute. reflexivity.
Defined.

Lemma parse_counters_flags text result r1 :
  parse_counters text result = Ok r1 ->
  Ping.success r1 = Ping.success result /\ Ping.avg_rtt_ms r1 = Ping.avg_rtt_ms result.
Proof.
  intros Hr.
  destruct (re_search unix_summary_re text) as [m|] eqn:Hu.
  - destruct (parse_counters_unix_ok _ _ _ _ Hu Hr) as [L1 L2].
    rewrite (parse_counters_unix _ _ _ Hu L1 L2) in Hr. injection Hr as <-. auto.
  - destruct (re_search windows_summary_re text) as [m|] eqn:Hw.
    + destruct (parse_counters_windows_ok _ _ _ _ Hu Hw Hr) as (L1 & L2 & L3);
        [discriminate|].
      rewrite (parse_counters_windows _ _ _ Hu Hw L1 L2 L3) in Hr. cbv zeta in Hr.
      destruct (_ =? 0); [injection Hr as <-; auto|].
      destruct (is_infinite _); [discriminate | injection Hr as <-; auto].
    + rewrite (parse_counters_none _ _ Hu Hw) in Hr. injection Hr as <-. auto.
Qed.

Lemma received_positive_spec result :
  received_positive result = true <-> exists n, Ping.received result = Some n /\ 0 < n.
Proof.
  unfold received_positive. destruct (Ping.received result) as [n|].
  - rewrite andb_true_iff, negb_true_iff, Z.eqb_neq, Z.ltb_lt. split.
    + intros [_ H]. eauto.
    + intros (n' & [= <-] & H). lia.
  - split; [discriminate | intros (n & H & _); discriminate].
Qed.

Lemma parse_success_flag text result :
  Ping.success (parse_success text result)
    = received_positive result || contains (txt "ttl=") (lower text) || Ping.success result.
Proof.
  unfold parse_success. destruct (received_positive result); [reflexivity|].
  destruct (contains _ _); reflexivity.
Qed.

Lemma parse_ping_inv text result res :
  parse_ping text result = Ok res ->
  exists r1, parse_counters text result = Ok r1 /\
    res = parse_success text (parse_avg_rtt text r1).
Proof.
  unfold parse_ping. destruct (parse_counters text result) as [r1|e]; simpl; [|discriminate].
  intros [= <-]. eauto.
Qed.




(** C4, as stated, fails: a summary that reports 0 packets received next to
    a line with [ttl=] is a success, although its counters were parsed. *)
Lemma success_with_zero_received :
  parse_ping zero_received_text (Ping.initial [] zero_received_text)
    = Ok (Ping.mk [] true zero_received_text (Some 4) (Some 0) (Some float_100) None) /\
  ~ success_rule_with_unparsed_counters zero_received_text
      (Ping.mk [] true zero_received_text (Some 4) (Some 0) (Some float_100) None).
Proof.
  split; [vm_compute; reflexivity|].
  unfold success_rule_with_unparsed_counters. simpl. intros [H _].
  destruct (H eq_refl) as [(n & [= <-] & Hn) | ([=] & _)]. lia.
Qed.

(** C4, amended.  The success flag of a parsed output is true iff the
    received count is a positive integer or the lower-cased text contains
    [ttl=]; the marker is looked for whenever the received count is unset
    or zero.  A reply line without a summary gives success with every
    number unset. *)
Theorem success_flag_rule :
  (forall h text res,
     parse_ping text (Ping.initial h text) = Ok res ->
     (Ping.success res = true <->
      (exists n, Ping.received res = Some n /\ 0 < n) \/
      (exists pre post, lower text = pre ++ txt "ttl=" ++ post))) /\
  (forall h,
     parse_ping reply_example (Ping.initial h reply_example)
       = Ok (Ping.mk h true reply_example None None None None)).
Proof.
  split; [|intros h; vm_compute; reflexivity].
  intros h text res Hres.
  destruct (parse_ping_inv _ _ _ Hres) as (r1 & Hr1 & ->).
  destruct (parse_counters_flags _ _ _ Hr1) as [Hs _]. simpl in Hs.
  destruct (parse_success_fields text (parse_avg_rtt text r1)) as (_ & _ & _ & -> & _).
  destruct (parse_avg_rtt_fields text r1) as (_ & Hs' & _ & _ & Hr' & _).
  rewrite parse_success_flag, Hs', Hs, orb_false_r, orb_true_iff.
  rewrite received_positive_spec, Hr', contains_spec. reflexivity.
Qed.

Lemma success_flag_rule_witness :
  Ping.success (Ping.mk [] true reply_example None None None None) = true <->
  (exists n, Ping.received (Ping.mk [] true reply_example None None None None) = Some n /\ 0 < n) \/
  (exists pre post, lower reply_example = pre ++ txt "ttl=" ++ post).
Proof.
  apply (proj1 success_flag_rule [] reply_example). vm_compute. reflexivity.
Defined.

(** ** The shape of the texts the Unix pattern matches *)

Lemma matches_nil_inv s gs rest : matches [] s gs rest -> gs = [] /\ rest = s.
Proof. inversion 1. auto. Qed.

Lemma matches_plus_inv p r s gs rest :
  matches (Plus p :: r) s gs rest ->
  exists w s', s = w ++ s' /\ run p w /\ matches r s' gs rest.
Proof. inversion 1; subst. unfold run. eauto 10. Qed.

Lemma matches_group_inv p r s gs rest :
  matches (Group p :: r) s gs rest ->
  exists w s' gs', s = w ++ s' /\ gs = w :: gs' /\ run p w /\ matches r s' gs' rest.
Proof. inversion 1; subst. unfold run. eauto 10. Qed.

Lemma matches_lazy_inv p r s gs rest :
  matches (Lazy p :: r) s gs rest ->
  exists w s', s = w ++ s' /\ forallb p w = true /\ matches r s' gs rest.
Proof. inversion 1; subst. eauto 10. Qed.

Lemma matches_lit_inv l r s gs rest :
  matches (lit l ++ r) s gs rest -> exists s', s = txt l ++ s' /\ matches r s' gs rest.
Proof.
  unfold lit. generalize (txt l) as t. intros t. revert s.
  induction t as [|a t IH]; intros s; simpl.
  - eauto.
  - inversion 1 as [|? ? c s0 ? ? Hc Hm| | |]; subst.
    apply is_char_eq in Hc as <-. destruct (IH _ Hm) as (s' & -> & Hm'). eauto.
Qed.

Lemma matches_lit_intro l r s gs rest :
  matches r s gs rest -> matches (lit l ++ r) (txt l ++ s) gs rest.
Proof.
  intros Hm. unfold lit. generalize (txt l) as t. intros t.
  induction t as [|a t IH]; simpl; [exact Hm|].
  constructor; [now apply is_char_eq | exact IH].
Qed.

Lemma forallb_any w : forallb any w = true.
Proof. induction w; simpl; auto. Qed.

Lemma unix_summary_re_atoms :
  unix_summary_re =
  Group digit :: Plus space :: (lit "packets transmitted" ++
  Lazy any :: Group digit :: Plus space :: (lit "received" ++
  Lazy any :: Group ascii_digit :: (lit "%" ++
  Plus space :: (lit "packet loss" ++ [])))).
Proof. reflexivity. Qed.

Lemma matches_unix_summary s gs rest :
  matches unix_summary_re s gs rest <->
  exists g1 w1 mid1 g2 w2 mid2 g3 w3,
    s = g1 ++ w1 ++ txt "packets transmitted" ++ mid1 ++
        g2 ++ w2 ++ txt "received" ++ mid2 ++
        g3 ++ txt "%" ++ w3 ++ txt "packet loss" ++ rest /\
    gs = [g1; g2; g3] /\
    run digit g1 /\ run space w1 /\ run digit g2 /\ run space w2 /\
    run ascii_digit g3 /\ run space w3.
Proof.
  rewrite unix_summary_re_atoms. split.
  - intros H.
    apply matches_group_inv in H as (g1 & s1 & gs1 & -> & -> & Hg1 & H).
    apply matches_plus_inv in H as (w1 & s2 & -> & Hw1 & H).
    apply matches_lit_inv in H as (s3 & -> & H).
    apply matches_lazy_inv in H as (mid1 & s4 & -> & _ & H).
    apply matches_group_inv in H as (g2 & s5 & gs2 & -> & -> & Hg2 & H).
    apply matches_plus_inv in H as (w2 & s6 & -> & Hw2 & H).
    apply matches_lit_inv in H as (s7 & -> & H).
    apply matches_lazy_inv in H as (mid2 & s8 & -> & _ & H).
    apply matches_group_inv in H as (g3 & s9 & gs3 & -> & -> & Hg3 & H).
    apply matches_lit_inv in H as (s10 & -> & H).
    apply matches_plus_inv in H as (w3 & s11 & -> & Hw3 & H).
    apply matches_lit_inv in H as (s12 & -> & H).
    apply matches_nil_inv in H as [-> ->].
    exists g1, w1, mid1, g2, w2, mid2, g3, w3. auto 10.
  - intros (g1 & w1 & mid1 & g2 & w2 & mid2 & g3 & w3 & -> & -> &
            [? ?] & [? ?] & [? ?] & [? ?] & [? ?] & [? ?]).
    apply matches_group; auto. apply matches_plus; auto. apply matches_lit_intro.
    apply matches_lazy; [apply forallb_any|].
    apply matches_group; auto. apply matches_plus; auto. apply matches_lit_intro.
    apply matches_lazy; [apply forallb_any|].
    apply matches_group; auto. apply matches_lit_intro.
    apply matches_plus; auto. apply matches_lit_intro. constructor.
Qed.

(** C5, as stated, fails: the two spellings of the summary line differ in
    letter case only, and only the lower-case one yields counters. *)
Lemma summary_case_matters :
  lower summary_lower_case = lower summary_capitalised /\
  parse_ping summary_lower_case (Ping.initial [] [])
    = Ok (Ping.mk [] true [] (Some 4) (Some 4) (Some float_0) None) /\
  parse_ping summary_capitalised (Ping.initial [] [])
    = Ok (Ping.mk [] false [] None None None None).
Proof. repeat split; vm_compute; reflexivity. Qed.

(** C5, amended.  The Unix pattern matches a text exactly when the text
    holds, in this order and with any text (line breaks too) in between:
    digits, white space, [packets transmitted], digits, white space,
    [received], ASCII digits, [%], white space, [packet loss]; the words
    are matched as spelt, in lower case.  The groups of the match found are
    such digits of the text. *)
Theorem unix_summary_matches_shape :
  (forall text m,
     re_search unix_summary_re text = Some m ->
     m = [group m 1; group m 2; group m 3] /\
     unix_summary_shape text (group m 1) (group m 2) (group m 3)) /\
  (forall text g1 g2 g3,
     unix_summary_shape text g1 g2 g3 -> is_Some (re_search unix_summary_re text)) /\
  (forall text,
     (forall pre post, text <> pre ++ txt "packets transmitted" ++ post) ->
     re_search unix_summary_re text = None).
Proof.
  assert (Hsound : forall text m,
     re_search unix_summary_re text = Some m ->
     m = [group m 1; group m 2; group m 3] /\
     unix_summary_shape text (group m 1) (group m 2) (group m 3)).
  { intros text m H. apply re_search_sound in H as (pre & s & rest & -> & H).
    apply matches_unix_summary in H
      as (g1 & w1 & mid1 & g2 & w2 & mid2 & g3 & w3 & -> & -> & Hr).
    split; [reflexivity|]. exists pre, w1, mid1, w2, mid2, w3, rest. split; auto. }
  split; [exact Hsound | split].
  - intros text g1 g2 g3 (pre & w1 & mid1 & w2 & mid2 & w3 & post & -> & Hr).
    eapply re_search_complete. apply matches_unix_summary.
    exists g1, w1, mid1, g2, w2, mid2, g3, w3. split; [reflexivity | split; [reflexivity | exact Hr]].
  - intros text Hno. destruct (re_search unix_summary_re text) as [m|] eqn:H; [|reflexivity].
    destruct (Hsound _ _ H) as (_ & pre & w1 & mid1 & w2 & mid2 & w3 & post & Ht & _).
    exfalso. apply (Hno (pre ++ group m 1 ++ w1)
      (mid1 ++ group m 2 ++ w2 ++ txt "received" ++ mid2 ++ group m 3 ++ txt "%" ++ w3
            ++ txt "packet loss" ++ post)).
    rewrite Ht. rewrite <- !app_assoc. reflexivity.
Qed.

Lemma unix_summary_matches_shape_witness :
  unix_summary_shape summary_lower_case (txt "4") (txt "4") (txt "0") /\
  is_Some (re_search unix_summary_re summary_lower_case) /\
  re_search unix_summary_re summary_capitalised = None.
Proof.
  split; [|split].
  - apply (proj1 unix_summary_matches_shape summary_lower_case [txt "4"; txt "4"; txt "0"]).
    vm_compute. reflexivity.
  - apply (proj1 (proj2 unix_summary_matches_shape) summary_lower_case
             (txt "4") (txt "4") (txt "0")).
    exists [], (txt " "), (txt ", "), (txt " "), (txt ", "), (txt " "), [].
    repeat split; try discriminate; reflexivity.
  - apply (proj2 (proj2 unix_summary_matches_shape) summary_capitalised).
    intros pre post H.
    assert (Hc : contains (txt "packets transmitted") summary_capitalised = true)
      by (apply contains_spec; eauto).
    vm_compute in Hc. discriminate.
Defined.

(** ** Running the probes *)

Lemma bind_ok_inv {A B} (m : M A) (f : A -> M B) w b w' :
  bind m f w = (Ok b, w') ->
  exists a w1, m w = (Ok a, w1) /\ f a w1 = (Ok b, w').
Proof.
  unfold bind. destruct (m w) as [[a|e] w1]; [eauto | discriminate].
Qed.

Lemma run_subprocess_failure o cmd timeout w msg :
  subprocess_run o (length w) cmd timeout = inl msg ->
  run_subprocess o cmd timeout w
    = (Ok (false, txt "Error running " ++ join (txt " ") cmd ++ txt ": " ++ msg),
       EvSubprocess cmd timeout :: w).
Proof. intros H. unfold run_subprocess, bind, call. rewrite H. reflexivity. Qed.

(** When the process could be run, [ping_host] is the parser applied to
    its output. *)
Lemma ping_host_parses o host count timeout w out w' :
  run_subprocess o
    (if IS_WINDOWS o then [txt "ping"; host; txt "-n"; str_of_Z count]
     else [txt "ping"; txt "-c"; str_of_Z count; host])
    (timeout + 2) w = (Ok (true, out), w') ->
  ping_host o host count timeout w = (parse_ping out (Ping.initial host out), w').
Proof.
  intros H. unfold ping_host. unfold bind at 1. rewrite H. reflexivity.
Qed.

(** C10.  When [run_subprocess] reports [ok = false], [ping_host] returns
    at once: nothing is set, [success] is false and [raw] is the error
    text, which no pattern and no [ttl=] test is applied to. *)
Theorem ping_host_launch_failure o host count timeout w out w' :
  run_subprocess o
    (if IS_WINDOWS o then [txt "ping"; host; txt "-n"; str_of_Z count]
     else [txt "ping"; txt "-c"; str_of_Z count; host])
    (timeout + 2) w = (Ok (false, out), w') ->
  ping_host o host count timeout w
    = (Ok (Ping.mk host false out None None None None), w').
Proof.
  intros H. unfold ping_host. unfold bind at 1. rewrite H. reflexivity.
Qed.

Lemma ping_host_launch_failure_witness :
  ping_host failing_oracle (txt "10.0.0.1") 4 4 []
    = (Ok (Ping.mk (txt "10.0.0.1") false
             (txt "Error running ping -c 4 10.0.0.1: [Errno 2] No such file or directory: 'ttl=1'")
             None None None None),
       [EvSubprocess [txt "ping"; txt "-c"; txt "4"; txt "10.0.0.1"] 6]) /\
  contains (txt "ttl=")
    (lower (txt "Error running ping -c 4 10.0.0.1: [Errno 2] No such file or directory: 'ttl=1'"))
    = true.
Proof.
  split; [|vm_compute; reflexivity].
  apply (ping_host_launch_failure failing_oracle (txt "10.0.0.1") 4 4 []).
  vm_compute. reflexivity.
Defined.

(** C7.  The traceroute text stored in a record is [truncate_raw] of the
    text the traceroute returned: the text itself up to 400 characters, its
    first 400 characters and the marker [...[truncated]] past that. *)
Theorem traceroute_truncated :
  (forall raw, (length raw <= 400)%nat -> truncate_raw raw = raw) /\
  (forall raw, (400 < length raw)%nat ->
     truncate_raw raw = take 400 raw ++ txt "...[truncated]") /\
  (forall o ports ping_count h w r w',
     diagnose o ports ping_count h w = (Ok r, w') ->
     exists w1 tr w2,
       traceroute_host o h 20 w1 = (Ok tr, w2) /\
       Rec.traceroute_raw r = truncate_raw (Trace.raw tr)).
Proof.
  repeat split.
  - intros raw H. unfold truncate_raw.
    destruct (400 <? length raw)%nat eqn:E; [apply Nat.ltb_lt in E; lia|].
    rewrite app_nil_r. apply take_ge. exact H.
  - intros raw H. unfold truncate_raw.
    destruct (400 <? length raw)%nat eqn:E; [reflexivity|].
    apply Nat.ltb_ge in E. lia.
  - intros o ports ping_count h w r w' H. unfold diagnose in H.
    apply bind_ok_inv in H as (_ & w1 & _ & H).
    apply bind_ok_inv in H as (t0 & w2 & _ & H).
    apply bind_ok_inv in H as (dns & w3 & _ & H).
    apply bind_ok_inv in H as (ping & w4 & _ & H).
    apply bind_ok_inv in H as (tr & w5 & Htr & H).
    apply bind_ok_inv in H as (prs & w6 & _ & H).
    injection H as <- <-. exists w4, tr, w5. auto.
Qed.

Lemma traceroute_truncated_witness :
  truncate_raw (repeat "a"%char 400) = repeat "a"%char 400 /\
  truncate_raw (repeat "a"%char 401) = take 400 (repeat "a"%char 401) ++ txt "...[truncated]" /\
  (exists w1 tr w2,
     traceroute_host (sample_oracle false (repeat "a"%char 401) ticking_clock)
       (txt "10.0.0.1") 20 w1 = (Ok tr, w2) /\
     take 400 (repeat "a"%char 401) ++ txt "...[truncated]" = truncate_raw (Trace.raw tr)).
Proof.
  split; [|split].
  - apply (proj1 traceroute_truncated). rewrite repeat_length. lia.
  - apply (proj1 (proj2 traceroute_truncated)). rewrite repeat_length. lia.
  - pose proof (proj2 (proj2 traceroute_truncated)
                  (sample_oracle false (repeat "a"%char 401) ticking_clock)
                  [22] 2 (txt "10.0.0.1") []) as H.
    match eval vm_compute in
          (diagnose (sample_oracle false (repeat "a"%char 401) ticking_clock)
             [22] 2 (txt "10.0.0.1") []) with
    | (Ok ?r, ?w) => specialize (H r w)
    end.
    apply H. vm_compute. reflexivity.
Defined.

(** ** The rows of the CSV file *)

Lemma port_rows_fold base ps : forall rows,
  fold_left (fun rows p => rows ++ [port_row base p]) ps rows
    = rows ++ map (port_row base) ps.
Proof.
  induction ps as [|p ps IH]; intros rows; simpl.
  - now rewrite app_nil_r.
  - rewrite IH, <- app_assoc. reflexivity.
Qed.

Lemma record_rows_app rows r : record_rows rows r = rows ++ record_rows [] r.
Proof.
  unfold record_rows. destruct (Rec.ports r) as [|p ps]; [reflexivity|].
  now rewrite !port_rows_fold.
Qed.

Lemma build_rows_concat results :
  build_rows results = concat (map (record_rows []) results).
Proof.
  unfold build_rows.
  enough (H : forall rows,
             fold_left record_rows results rows = rows ++ concat (map (record_rows []) results))
    by apply (H []).
  induction results as [|r results IH]; intros rows; simpl.
  - now rewrite app_nil_r.
  - rewrite IH, record_rows_app, <- app_assoc. reflexivity.
Qed.

Lemma dict_to_list_base r :
  dict_to_list keys (base_row r) = Ok (flat_row r (PStr []) (PStr []) (PStr [])).
Proof. reflexivity. Qed.

Lemma dict_to_list_port r p :
  dict_to_list keys (port_row (base_row r) p)
    = Ok (flat_row r (PInt (Port.port p)) (PBool (Port.open p)) (PFloat (Port.rtt_ms p))).
Proof. reflexivity. Qed.

Lemma all_rows_app fieldnames rows1 rows2 cells1 cells2 :
  all_rows fieldnames rows1 = Ok cells1 ->
  all_rows fieldnames rows2 = Ok cells2 ->
  all_rows fieldnames (rows1 ++ rows2) = Ok (cells1 ++ cells2).
Proof.
  revert cells1. induction rows1 as [|row rows1 IH]; intros cells1; simpl.
  - intros [= <-] H. exact H.
  - destruct (dict_to_list fieldnames row) as [c|e]; simpl; [|discriminate].
    destruct (all_rows fieldnames rows1) as [cs|e]; simpl; [|discriminate].
    intros [= <-] H. rewrite (IH cs eq_refl H). reflexivity.
Qed.

Lemma all_rows_ports r ps :
  all_rows keys (map (port_row (base_row r)) ps)
    = Ok (map (fun p => flat_row r (PInt (Port.port p)) (PBool (Port.open p))
                                 (PFloat (Port.rtt_ms p))) ps).
Proof.
  induction ps as [|q qs IH]; [reflexivity|].
  cbn [map all_rows]. rewrite dict_to_list_port, IH. reflexivity.
Qed.

Lemma all_rows_record r :
  all_rows keys (record_rows [] r) = Ok (record_cells r).
Proof.
  unfold record_rows, record_cells. destruct (Rec.ports r) as [|p ps]; [reflexivity|].
  rewrite port_rows_fold. apply all_rows_ports.
Qed.

Lemma all_rows_build results :
  all_rows keys (build_rows results) = Ok (concat (map record_cells results)).
Proof.
  rewrite build_rows_concat. induction results as [|r results IH]; [reflexivity|].
  cbn [map concat]. apply all_rows_app; [apply all_rows_record | exact IH].
Qed.

(** C6.  The rows handed to the CSV writer are, record after record, one
    row with the three port columns empty when the record has no port, and
    one row per port otherwise, each with the nine other columns of the
    record and the number, state and time of its port. *)
Theorem rows_per_record :
  (forall results,
     all_rows keys (build_rows results) = Ok (concat (map record_cells results))) /\
  (forall o results filename w,
     write_error o (length w) filename = None ->
     save_results_csv o results filename w
       = (Ok tt,
          EvPrint (txt "Saved results to " ++ filename)
            :: EvWriteCsv filename keys (concat (map record_cells results)) :: w)) /\
  (forall r,
     Rec.ports r = [] ->
     record_cells r = [flat_row r (PStr []) (PStr []) (PStr [])]) /\
  (forall r,
     Rec.ports r <> [] ->
     length (record_cells r) = length (Rec.ports r) /\
     forall i p,
       Rec.ports r !! i = Some p ->
       record_cells r !! i
         = Some (flat_row r (PInt (Port.port p)) (PBool (Port.open p)) (PFloat (Port.rtt_ms p)))) /\
  (forall r p1 p2,
     Rec.ports r = [p1; p2] ->
     record_cells r
       = [flat_row r (PInt (Port.port p1)) (PBool (Port.open p1)) (PFloat (Port.rtt_ms p1));
          flat_row r (PInt (Port.port p2)) (PBool (Port.open p2)) (PFloat (Port.rtt_ms p2))]).
Proof.
  split; [exact all_rows_build|]. split; [|split; [|split]].
  - intros o results filename w H.
    unfold save_results_csv, bind, lift, call. rewrite all_rows_build, H. reflexivity.
  - intros r H. unfold record_cells. now rewrite H.
  - intros r H. unfold record_cells. destruct (Rec.ports r) as [|p ps] eqn:E; [congruence|].
    split; [apply length_map|].
    intros i q Hq. rewrite list_lookup_fmap, Hq. reflexivity.
  - intros r p1 p2 H. unfold record_cells. now rewrite H.
Qed.

Lemma rows_per_record_witness :
  record_cells no_port_record = [flat_row no_port_record (PStr []) (PStr []) (PStr [])] /\
  record_cells two_ports_record
    = [flat_row two_ports_record (PInt 22) (PBool true) (PFloat float_12_3);
       flat_row two_ports_record (PInt 443) (PBool false) (PFloat float_50)] /\
  (length (record_cells two_ports_record) = 2%nat /\
   record_cells two_ports_record !! 1%nat
     = Some (flat_row two_ports_record (PInt 443) (PBool false) (PFloat float_50))) /\
  save_results_csv (sample_oracle false [] ticking_clock)
    [no_port_record; two_ports_record] (txt "net_diagnostics_log.csv") []
    = (Ok tt,
       [EvPrint (txt "Saved results to net_diagnostics_log.csv");
        EvWriteCsv (txt "net_diagnostics_log.csv") keys
          [flat_row no_port_record (PStr []) (PStr []) (PStr []);
           flat_row two_ports_record (PInt 22) (PBool true) (PFloat float_12_3);
           flat_row two_ports_record (PInt 443) (PBool false) (PFloat float_50)]]).
Proof.
  split; [|split; [|split]].
  - apply (proj1 (proj2 (proj2 rows_per_record)) no_port_record). reflexivity.
  - apply (proj2 (proj2 (proj2 (proj2 rows_per_record))) two_ports_record
             (Port.mk (txt "10.0.0.1") 22 true None float_12_3)
             (Port.mk (txt "10.0.0.1") 443 false (Some (txt "timed out")) float_50)).
    reflexivity.
  - destruct (proj1 (proj2 (proj2 (proj2 rows_per_record))) two_ports_record) as [Hlen Hrow];
      [discriminate|].
    split; [exact Hlen|].
    apply (Hrow 1%nat (Port.mk (txt "10.0.0.1") 443 false (Some (txt "timed out")) float_50)).
    reflexivity.
  - apply (proj1 (proj2 rows_per_record) (sample_oracle false [] ticking_clock)
             [no_port_record; two_ports_record] (txt "net_diagnostics_log.csv") []).
    reflexivity.
Defined.

(** ** The telemetry loop *)

Lemma float_lt_Z_mono f n n' :
  n <= n' -> float_lt_Z f n = true -> float_lt_Z f n' = true.
Proof.
  intros Hn. destruct f as [s|s| |s m e]; simpl; auto.
  - rewrite !Z.ltb_lt. lia.
  - destruct e as [|k|k]; rewrite !Z.ltb_lt; intros H; try lia.
    assert (0 < 2 ^ Z.pos k) by (apply Z.pow_pos_nonneg; lia). nia.
Qed.

Lemma save_results_csv_ok o results filename w u w' :
  save_results_csv o results filename w = (Ok u, w') ->
  w' = EvPrint (txt "Saved results to " ++ filename)
         :: EvWriteCsv filename keys (concat (map record_cells results)) :: w.
Proof.
  unfold save_results_csv, bind, lift, call, raise. rewrite all_rows_build.
  destruct (write_error o (length w) filename); [discriminate|].
  intros [= _ <-]. reflexivity.
Qed.

(** [time.sleep]: out of range, negative, or passed on to the system. *)
Lemma sleep_eq o secs w :
  sleep o secs w
    = if (secs <? - sleep_max) || (sleep_max <? secs) then (Raise OverflowError, w)
      else if secs <? 0 then (Raise ValueError, w)
      else match sleep_error o (length w) secs with
           | Some e => (Raise e, EvSleep secs :: w)
           | None => (Ok tt, EvSleep secs :: w)
           end.
Proof.
  unfold sleep, raise.
  destruct ((secs <? - sleep_max) || (sleep_max <? secs)); [reflexivity|].
  destruct (secs <? 0); [reflexivity|].
  unfold bind, call, raise, ret. destruct (sleep_error o (length w) secs); reflexivity.
Qed.

(** A cycle that ends without an error has run the diagnostics with two
    pings a host and has written their rows to [telemetry_log.csv]. *)
Lemma cycle_trace o hosts ports interval w u w' :
  cycle o hosts ports interval w = (Ok u, w') ->
  exists results w1 line1 line2,
    run_diagnostics o hosts ports 2 w = (Ok results, w1) /\
    w' = EvSleep interval :: EvPrint line1 :: EvStrftime (txt "%H:%M:%S") :: EvPrint line2
           :: EvWriteCsv (txt "telemetry_log.csv") keys (concat (map record_cells results))
           :: w1.
Proof.
  unfold cycle. intros H.
  apply bind_ok_inv in H as (results & w1 & Hd & H).
  apply bind_ok_inv in H as (u1 & w2 & Hs & H).
  apply save_results_csv_ok in Hs as ->.
  apply bind_ok_inv in H as (now & w3 & Hn & H).
  apply bind_ok_inv in H as (u2 & w4 & Hp & H).
  unfold call in Hn, Hp. injection Hn as <- <-. injection Hp as _ <-.
  rewrite sleep_eq in H.
  destruct ((interval <? - sleep_max) || (sleep_max <? interval)); [discriminate|].
  destruct (interval <? 0); [discriminate|].
  destruct (sleep_error o _ interval); [discriminate|]. injection H as _ <-.
  eauto 10.
Qed.

(** C8, as stated, fails: with [durationSeconds = 0] the loop condition is
    false at its first test, whether the clock has advanced or not, and the
    driver returns after two readings of the clock, with no probe run and
    nothing written. *)
Lemma no_cycle_for_zero_duration :
  monitor_hosts (sample_oracle false linux_ping_output ticking_clock) 10
    [txt "10.0.0.1"] (Some [22; 443]) 30 0 [] = (Ok (Some tt), [EvTime; EvTime]) /\
  monitor_hosts (sample_oracle false linux_ping_output still_clock) 10
    [txt "10.0.0.1"] (Some [22; 443]) 30 0 [] = (Ok (Some tt), [EvTime; EvTime]).
Proof. split; vm_compute; reflexivity. Qed.

Lemma monitor_hosts_step o fuel hosts ports interval duration w :
  monitor_hosts o (S fuel) hosts ports interval duration w
    = if float_lt_Z (fsub (time_time o (S (length w))) (time_time o (length w))) duration
      then bind (cycle o hosts ports interval)
                (fun _ => monitor_loop o fuel hosts ports interval duration
                            (time_time o (length w)))
                (EvTime :: EvTime :: w)
      else (Ok (Some tt), EvTime :: EvTime :: w).
Proof.
  unfold monitor_hosts. unfold bind at 1, call. cbn [monitor_loop].
  unfold bind at 1, call. cbn [length].
  destruct (float_lt_Z _ duration); reflexivity.
Qed.

(** C8, amended.  The driver reads the clock twice and runs its first cycle
    exactly when the elapsed time between the two readings is below
    [duration], whatever [interval] is: then the diagnostics and the write
    to [telemetry_log.csv] of that cycle take place before anything else.
    Otherwise it returns without a cycle; this is the case for every
    [duration <= 0], so for 0, when the clock has not gone backwards. *)
Theorem telemetry_first_cycle o fuel hosts ports interval duration w :
  let start := time_time o (length w) in
  let t := time_time o (S (length w)) in
  (float_lt_Z (fsub t start) duration = true ->
   monitor_hosts o (S fuel) hosts ports interval duration w
     = bind (cycle o hosts ports interval)
            (fun _ => monitor_loop o fuel hosts ports interval duration start)
            (EvTime :: EvTime :: w) /\
   forall u w1,
     cycle o hosts ports interval (EvTime :: EvTime :: w) = (Ok u, w1) ->
     exists results w0 line1 line2,
       run_diagnostics o hosts ports 2 (EvTime :: EvTime :: w) = (Ok results, w0) /\
       w1 = EvSleep interval :: EvPrint line1 :: EvStrftime (txt "%H:%M:%S") :: EvPrint line2
              :: EvWriteCsv (txt "telemetry_log.csv") keys (concat (map record_cells results))
              :: w0) /\
  (float_lt_Z (fsub t start) duration = false ->
   monitor_hosts o (S fuel) hosts ports interval duration w
     = (Ok (Some tt), EvTime :: EvTime :: w)) /\
  (float_lt_Z (fsub t start) 0 = false -> duration <= 0 ->
   monitor_hosts o (S fuel) hosts ports interval duration w
     = (Ok (Some tt), EvTime :: EvTime :: w)).
Proof.
  intros start t.
  pose proof (monitor_hosts_step o fuel hosts ports interval duration w) as Hstep.
  fold start t in Hstep.
  assert (Hno : float_lt_Z (fsub t start) duration = false ->
                monitor_hosts o (S fuel) hosts ports interval duration w
                  = (Ok (Some tt), EvTime :: EvTime :: w)).
  { intros H. now rewrite Hstep, H. }
  split; [|split; [exact Hno|]].
  - intros H. split; [|intros u w1; apply cycle_trace].
    now rewrite Hstep, H.
  - intros H0 Hd. apply Hno.
    destruct (float_lt_Z (fsub t start) duration) eqn:E; [|reflexivity].
    rewrite (float_lt_Z_mono _ _ _ Hd E) in H0. discriminate.
Qed.

Lemma telemetry_first_cycle_witness :
  monitor_hosts (sample_oracle false linux_ping_output ticking_clock) 2
    [txt "10.0.0.1"] (Some [22]) 30 300 []
  = bind (cycle (sample_oracle false linux_ping_output ticking_clock)
            [txt "10.0.0.1"] (Some [22]) 30)
         (fun _ => monitor_loop (sample_oracle false linux_ping_output ticking_clock) 1
                     [txt "10.0.0.1"] (Some [22]) 30 300 (float_of_Z 1700000000))
         [EvTime; EvTime] /\
  monitor_hosts (sample_oracle false linux_ping_output ticking_clock) 2
    [txt "10.0.0.1"] (Some [22]) 30 1 [] = (Ok (Some tt), [EvTime; EvTime]) /\
  monitor_hosts (sample_oracle false linux_ping_output still_clock) 2
    [txt "10.0.0.1"] (Some [22]) 30 (-5) [] = (Ok (Some tt), [EvTime; EvTime]).
Proof.
  split; [|split].
  - apply (telemetry_first_cycle (sample_oracle false linux_ping_output ticking_clock) 1
             [txt "10.0.0.1"] (Some [22]) 30 300 []).
    vm_compute. reflexivity.
  - apply (proj1 (proj2 (telemetry_first_cycle
             (sample_oracle false linux_ping_output ticking_clock) 1
             [txt "10.0.0.1"] (Some [22]) 30 1 []))).
    vm_compute. reflexivity.
  - apply (proj2 (proj2 (telemetry_first_cycle
             (sample_oracle false linux_ping_output still_clock) 1
             [txt "10.0.0.1"] (Some [22]) 30 (-5) []))).
    + vm_compute. reflexivity.
    + lia.
Defined.

(** * Further properties of the code *)

(** ** The average round-trip time *)

Lemma count_chars_cons p c s :
  count_chars p (c :: s) = ((if p c then 1 else 0) + count_chars p s)%nat.
Proof. unfold count_chars. simpl. destruct (p c); reflexivity. Qed.

Lemma digit_or_dot_cases c :
  digit_or_dot c = true ->
  (digit c = true /\ is_char "." c = false) \/ (digit c = false /\ is_char "." c = true).
Proof.
  unfold digit_or_dot. destruct (digit c) eqn:Hd; simpl.
  - intros _. left. split; [reflexivity | now apply digit_not_dot].
  - intros H. right. auto.
Qed.

Lemma digits_iff_no_dot r :
  forallb digit_or_dot r = true ->
  (forallb digit r = true <-> count_chars (is_char ".") r = 0%nat) /\
  (forallb digit r = true -> count_chars digit r = length r).
Proof.
  induction r as [|c r IH]; simpl; [intros _; split; [split|]; reflexivity|].
  intros H. apply andb_true_iff in H as [Hc Hr]. destruct (IH Hr) as [IH1 IH2].
  rewrite !count_chars_cons.
  destruct (digit_or_dot_cases _ Hc) as [[-> ->] | [-> ->]]; simpl.
  - split; [exact IH1 | intros H; now rewrite (IH2 H)].
  - split; [split; [discriminate | lia] | discriminate].
Qed.

Lemma split_dot_run g :
  forallb digit_or_dot g = true ->
  exists ip fp,
    split_dot g = (ip, fp) /\ forallb digit ip = true /\
    match fp with
    | None =>
        count_chars (is_char ".") g = 0%nat /\ count_chars digit g = length ip
    | Some r =>
        forallb digit_or_dot r = true /\
        count_chars (is_char ".") g = S (count_chars (is_char ".") r) /\
        count_chars digit g = (length ip + count_chars digit r)%nat
    end.
Proof.
  induction g as [|c g IH]; simpl.
  - intros _. exists [], None. auto.
  - intros H. apply andb_true_iff in H as [Hc Hg].
    rewrite !count_chars_cons.
    destruct (digit_or_dot_cases _ Hc) as [[Hd Hdot] | [Hd Hdot]]; rewrite Hd, Hdot.
    + destruct (IH Hg) as (ip & fp & -> & Hip & Hfp).
      exists (c :: ip), fp. simpl. rewrite Hd, Hip. repeat split.
      destruct fp as [r|].
      * destruct Hfp as (Hr & -> & ->). auto.
      * destruct Hfp as (-> & ->). auto.
    + exists [], (Some g). simpl. auto.
Qed.

(** [float] accepts a run of digits and dots exactly when it has at most
    one dot and at least one digit. *)
Lemma py_float_run_valid g :
  run digit_or_dot g ->
  (exists v, py_float g = Ok v) <->
  (count_chars (is_char ".") g <= 1)%nat /\ (1 <= count_chars digit g)%nat.
Proof.
  intros [Hne Hg]. unfold py_float.
  destruct (split_dot_run _ Hg) as (ip & fp & -> & Hip & Hfp). rewrite Hip. simpl andb.
  destruct fp as [r|].
  - destruct Hfp as (Hr & Hdots & Hdig). destruct (digits_iff_no_dot _ Hr) as [H1 H2].
    rewrite Hdots, Hdig. destruct (forallb digit r) eqn:Hfr; simpl.
    + rewrite (H2 eq_refl), length_app, (proj1 H1 eq_refl).
      destruct (Nat.eqb (length ip + length r) 0) eqn:E; simpl.
      * apply Nat.eqb_eq in E. split; [intros [v [=]] | lia].
      * apply Nat.eqb_neq in E. split; [intros _; lia | eauto].
    + split; [intros [v [=]]|]. intros [Hle _].
      assert (count_chars (is_char ".") r = 0%nat) as H0 by lia.
      apply H1 in H0. discriminate.
  - destruct Hfp as (Hdots & Hdig). rewrite Hdots, Hdig, app_nil_r. simpl.
    destruct ip as [|c ip]; simpl.
    + split; [intros [v [=]] | lia].
    + split; [intros _; lia | eauto].
Qed.

Lemma rtt_group s m : re_search rtt_re s = Some m -> run digit_or_dot (group m 1).
Proof. apply one_group. reflexivity. Qed.

Lemma average_group s m : re_search average_re s = Some m -> run digit (group m 1).
Proof. apply one_group. reflexivity. Qed.

(** X1.  The average round-trip time is read from the first of the two
    patterns that matches.  When the [rtt] line matches, its second number
    is taken if it has at most one dot and at least one digit; if not, the
    result is left as it was, and the [Average = ..ms] line is not looked
    at.  When only the [Average] line matches, its digits are always taken. *)
Theorem avg_rtt_rule text result :
  (forall m,
     re_search rtt_re text = Some m ->
     ((count_chars (is_char ".") (group m 1) <= 1)%nat /\
      (1 <= count_chars digit (group m 1))%nat ->
      exists v, py_float (group m 1) = Ok v /\
                Ping.avg_rtt_ms (parse_avg_rtt text result) = Some v) /\
     (~ ((count_chars (is_char ".") (group m 1) <= 1)%nat /\
         (1 <= count_chars digit (group m 1))%nat) ->
      parse_avg_rtt text result = result)) /\
  (forall m,
     re_search rtt_re text = None ->
     re_search average_re text = Some m ->
     Ping.avg_rtt_ms (parse_avg_rtt text result)
       = Some (fdiv (exact_of_Z (digits_value (group m 1))) (exact_of_Z 1))) /\
  (re_search rtt_re text = None ->
   re_search average_re text = None ->
   parse_avg_rtt text result = result).
Proof.
  split; [|split].
  - intros m Hm. pose proof (py_float_run_valid _ (rtt_group _ _ Hm)) as Hv.
    unfold parse_avg_rtt, try_set_avg_rtt. rewrite Hm. split.
    + intros H. apply Hv in H as [v Hf]. exists v. now rewrite Hf.
    + intros H. destruct (py_float (group m 1)) as [v|e] eqn:Hf; [|reflexivity].
      exfalso. apply H, Hv. eauto.
  - intros m Hr Ha. unfold parse_avg_rtt, try_set_avg_rtt. rewrite Hr, Ha.
    now rewrite (py_float_run _ (average_group _ _ Ha)).
  - intros Hr Ha. unfold parse_avg_rtt. now rewrite Hr, Ha.
Qed.

Lemma avg_rtt_rule_witness :
  (exists v, py_float (txt "12.3") = Ok v /\
     Ping.avg_rtt_ms (parse_avg_rtt unix_example (Ping.initial [] unix_example)) = Some v) /\
  parse_avg_rtt bad_rtt_text (Ping.initial [] bad_rtt_text) = Ping.initial [] bad_rtt_text /\
  Ping.avg_rtt_ms (parse_avg_rtt (txt "Average = 5ms") (Ping.initial [] []))
    = Some (fdiv (exact_of_Z 5) (exact_of_Z 1)) /\
  parse_avg_rtt reply_example (Ping.initial [] []) = Ping.initial [] [].
Proof.
  split; [|split; [|split]].
  - apply (proj1 (proj1 (avg_rtt_rule unix_example (Ping.initial [] unix_example))
                    [txt "12.3"] ltac:(vm_compute; reflexivity))).
    vm_compute. lia.
  - apply (proj2 (proj1 (avg_rtt_rule bad_rtt_text (Ping.initial [] bad_rtt_text))
                    [txt "1.2.3"] ltac:(vm_compute; reflexivity))).
    vm_compute. lia.
  - apply (proj1 (proj2 (avg_rtt_rule (txt "Average = 5ms") (Ping.initial [] [])))
             [txt "5"]); vm_compute; reflexivity.
  - apply (proj2 (proj2 (avg_rtt_rule reply_example (Ping.initial [] [])))); vm_compute; reflexivity.
Defined.

(** ** When the parser fails, and what it reads *)

(** X2.  Parsing raises in two cases only.  With [ValueError]: a counter
    that [int] is applied to has more than 4300 digits, in the Unix summary
    when the Unix pattern matches (its first two groups), in the Windows
    summary otherwise (its three groups).  With [OverflowError]: the Unix
    pattern does not match, the Windows pattern does, no counter is too
    long, [Sent] is not 0 and [Lost / Sent] is too large for a float. *)
Theorem parser_raises_iff text result e :
  parse_ping text result = Raise e <->
  (e = ValueError /\
   ((exists m, re_search unix_summary_re text = Some m /\
       too_long (group m 1) || too_long (group m 2) = true) \/
    (re_search unix_summary_re text = None /\
     exists m, re_search windows_summary_re text = Some m /\
       too_long (group m 1) || too_long (group m 2) || too_long (group m 3) = true))) \/
  (e = OverflowError /\
   re_search unix_summary_re text = None /\
   exists m, re_search windows_summary_re text = Some m /\
     too_long (group m 1) || too_long (group m 2) || too_long (group m 3) = false /\
     digits_value (group m 1) <> 0 /\
     is_infinite (fdiv (exact_of_Z (digits_value (group m 3)))
                       (exact_of_Z (digits_value (group m 1)))) = true).
Proof.
  split; [apply parse_ping_raise_cases|].
  intros [(-> & [(m & Hu & L) | (Hu & m & Hw & L)]) | (-> & Hu & m & Hw & L & Hz & Hi)];
    apply parse_ping_raise.
  - exact (parse_counters_unix_long _ _ _ Hu L).
  - exact (parse_counters_windows_long _ _ _ Hu Hw L).
  - apply orb_false_iff in L as [L L3]. apply orb_false_iff in L as [L1 L2].
    rewrite (parse_counters_windows _ result _ Hu Hw L1 L2 L3). cbv zeta.
    apply Z.eqb_neq in Hz. now rewrite Hz, Hi.
Qed.

Lemma digit_value_nonneg c : digit c = true -> 0 <= digit_value c <= 9.
Proof.
  unfold digit, in_range, digit_value. intros H.
  apply andb_true_iff in H as [H1 H2]. apply N.leb_le in H1, H2. lia.
Qed.

Lemma digits_value_nonneg g : forallb digit g = true -> 0 <= digits_value g.
Proof.
  unfold digits_value.
  enough (H : forall acc, 0 <= acc -> forallb digit g = true ->
                0 <= fold_left (fun acc c => 10 * acc + digit_value c) g acc)
    by (apply H; lia).
  induction g as [|c g IH]; simpl; intros acc Hacc Hg; [exact Hacc|].
  apply andb_true_iff in Hg as [Hc Hg]. apply IH; [|exact Hg].
  pose proof (digit_value_nonneg _ Hc). lia.
Qed.

Lemma float_3333_exact :
  valid_binary fprec femax float_3333 = true /\ 7329344510754816 = 3333 * 2 ^ 41.
Proof. split; reflexivity. Qed.

(** X3.  Counters that parsing sets are never negative, and a loss taken
    from the Unix summary is the float of a whole number, the digits right
    before the percent sign: a percentage printed with a fraction is not
    read as such, so that [33.3333% packet loss] gives 3333.0. *)
Theorem counters_are_whole_numbers :
  (forall text h res,
     parse_ping text (Ping.initial h text) = Ok res ->
     (forall n, Ping.sent res = Some n -> 0 <= n) /\
     (forall n, Ping.received res = Some n -> 0 <= n)) /\
  (forall text m result res,
     re_search unix_summary_re text = Some m ->
     parse_ping text result = Ok res ->
     exists n, 0 <= n /\ n = digits_value (group m 3) /\
       Ping.loss_pct res = Some (fdiv (exact_of_Z n) (exact_of_Z 1))) /\
  (forall h,
     parse_ping fractional_loss_text (Ping.initial h fractional_loss_text)
       = Ok (Ping.mk h true fractional_loss_text (Some 3) (Some 2) (Some float_3333) None)).
Proof.
  split; [|split; [|intros h; vm_compute; reflexivity]].
  - intros text h res Hres.
    destruct (parse_ping_inv _ _ _ Hres) as (r1 & Hr1 & ->).
    destruct (parse_success_fields text (parse_avg_rtt text r1)) as (_ & _ & -> & -> & _).
    destruct (parse_avg_rtt_fields text r1) as (_ & _ & _ & -> & -> & _).
    destruct (re_search unix_summary_re text) as [m|] eqn:Hu.
    + destruct (parse_counters_unix_ok _ _ _ _ Hu Hr1) as [L1 L2].
      rewrite (parse_counters_unix _ _ _ Hu L1 L2) in Hr1. injection Hr1 as <-.
      destruct (unix_summary_groups _ _ Hu) as ([_ H1] & [_ H2] & _). simpl.
      split; intros n [= <-]; now apply digits_value_nonneg.
    + destruct (re_search windows_summary_re text) as [m|] eqn:Hw.
      * destruct (parse_counters_windows_ok _ _ _ _ Hu Hw Hr1) as (L1 & L2 & L3);
          [discriminate|].
        rewrite (parse_counters_windows _ _ _ Hu Hw L1 L2 L3) in Hr1. cbv zeta in Hr1.
        destruct (windows_summary_groups _ _ Hw) as ([_ H1] & [_ H2] & _).
        assert (Hs : Ping.sent r1 = Some (digits_value (group m 1)) /\
                     Ping.received r1 = Some (digits_value (group m 2))).
        { destruct (_ =? 0); [injection Hr1 as <-; auto|].
          destruct (is_infinite _); [discriminate | injection Hr1 as <-; auto]. }
        destruct Hs as [-> ->].
        split; intros n [= <-]; now apply digits_value_nonneg.
      * rewrite (parse_counters_none _ _ Hu Hw) in Hr1. injection Hr1 as <-. simpl.
        split; intros n [=].
  - intros text m result res Hu Hres.
    destruct (parse_ping_inv _ _ _ Hres) as (r1 & Hr1 & _).
    destruct (parse_counters_unix_ok _ _ _ _ Hu Hr1) as [L1 L2].
    destruct (parse_ping_counters _ _ _ (parse_counters_unix text result m Hu L1 L2))
      as (res' & Hres' & _ & _ & Hl).
    rewrite Hres in Hres'. injection Hres' as <-.
    destruct (unix_summary_groups _ _ Hu) as (_ & _ & [_ H3]).
    exists (digits_value (group m 3)). split; [now apply digits_value_nonneg|]. auto.
Qed.

Lemma counters_are_whole_numbers_witness :
  ((forall n, Some 3 = Some n -> 0 <= n) /\ (forall n, Some 2 = Some n -> 0 <= n)) /\
  (exists n, 0 <= n /\ n = 3333 /\
     Some float_3333 = Some (fdiv (exact_of_Z n) (exact_of_Z 1))).
Proof.
  split.
  - apply (proj1 counters_are_whole_numbers fractional_loss_text []
             (Ping.mk [] true fractional_loss_text (Some 3) (Some 2) (Some float_3333) None)).
    vm_compute. reflexivity.
  - apply (proj1 (proj2 counters_are_whole_numbers) fractional_loss_text
             [txt "3"; txt "2"; txt "3333"] (Ping.initial [] fractional_loss_text)
             (Ping.mk [] true fractional_loss_text (Some 3) (Some 2) (Some float_3333) None));
      vm_compute; reflexivity.
Defined.

(** ** The reply marker *)

Lemma lower_char_t c : lower_char c = "t"%char <-> c = "t"%char \/ c = "T"%char.
Proof.
  split; [|intros [-> | ->]; reflexivity].
  destruct c as [[] [] [] [] [] [] [] []]; vm_compute; intros H;
    first [discriminate H | now left | now right].
Qed.

Lemma lower_char_l c : lower_char c = "l"%char <-> c = "l"%char \/ c = "L"%char.
Proof.
  split; [|intros [-> | ->]; reflexivity].
  destruct c as [[] [] [] [] [] [] [] []]; vm_compute; intros H;
    first [discriminate H | now left | now right].
Qed.

Lemma lower_char_equals c : lower_char c = "="%char <-> c = "="%char.
Proof.
  split; [|intros ->; reflexivity].
  destruct c as [[] [] [] [] [] [] [] []]; vm_compute; intros H;
    first [discriminate H | reflexivity].
Qed.

(** X4.  The test ["ttl=" in text.lower()] holds exactly when the text has
    the four characters [t], [t], [l], [=] in a row, the letters in either
    case. *)
Theorem ttl_marker_any_case text :
  contains (txt "ttl=") (lower text) = true <->
  exists pre a b c post,
    text = pre ++ [a; b; c; "="%char] ++ post /\
    (a = "t" \/ a = "T")%char /\ (b = "t" \/ b = "T")%char /\ (c = "l" \/ c = "L")%char.
Proof.
  rewrite contains_spec. split.
  - intros (pre' & post' & H). unfold lower in H.
    apply map_eq_app in H as (pre & s1 & -> & _ & H).
    destruct s1 as [|a [|b [|c [|d post]]]]; try discriminate H.
    simpl in H. injection H. intros _ Hd Hc Hb Ha.
    apply lower_char_t in Ha, Hb. apply lower_char_l in Hc.
    apply (proj1 (lower_char_equals d)) in Hd.
    rewrite Hd. exists pre, a, b, c, post. auto.
  - intros (pre & a & b & c & post & -> & Ha & Hb & Hc).
    exists (lower pre), (lower post). unfold lower. rewrite map_app. simpl.
    apply lower_char_t in Ha, Hb. apply lower_char_l in Hc. now rewrite Ha, Hb, Hc.
Qed.

(** ** The probes *)

Lemma run_subprocess_eq o cmd timeout w :
  run_subprocess o cmd timeout w
    = (Ok (match subprocess_run o (length w) cmd timeout with
           | inr (out, err) => (true, out ++ err)
           | inl e => (false, txt "Error running " ++ join (txt " ") cmd ++ txt ": " ++ e)
           end),
       EvSubprocess cmd timeout :: w).
Proof.
  unfold run_subprocess, bind, call.
  destruct (subprocess_run o (length w) cmd timeout) as [e|[out err]]; reflexivity.
Qed.

Lemma parse_counters_host_raw text result r1 :
  parse_counters text result = Ok r1 ->
  Ping.host r1 = Ping.host result /\ Ping.raw r1 = Ping.raw result.
Proof.
  intros Hr.
  destruct (re_search unix_summary_re text) as [m|] eqn:Hu.
  - destruct (parse_counters_unix_ok _ _ _ _ Hu Hr) as [L1 L2].
    rewrite (parse_counters_unix _ _ _ Hu L1 L2) in Hr. injection Hr as <-. auto.
  - destruct (re_search windows_summary_re text) as [m|] eqn:Hw.
    + destruct (parse_counters_windows_ok _ _ _ _ Hu Hw Hr) as (L1 & L2 & L3);
        [discriminate|].
      rewrite (parse_counters_windows _ _ _ Hu Hw L1 L2 L3) in Hr. cbv zeta in Hr.
      destruct (_ =? 0); [injection Hr as <-; auto|].
      destruct (is_infinite _); [discriminate | injection Hr as <-; auto].
    + rewrite (parse_counters_none _ _ Hu Hw) in Hr. injection Hr as <-. auto.
Qed.

Lemma parse_ping_host_raw text result res :
  parse_ping text result = Ok res ->
  Ping.host res = Ping.host result /\ Ping.raw res = Ping.raw result.
Proof.
  intros H. destruct (parse_ping_inv _ _ _ H) as (r1 & Hr1 & ->).
  destruct (parse_success_fields text (parse_avg_rtt text r1)) as (-> & -> & _).
  destruct (parse_avg_rtt_fields text r1) as (-> & _ & -> & _).
  exact (parse_counters_host_raw _ _ _ Hr1).
Qed.

Lemma ping_host_eq o host count timeout w :
  ping_host o host count timeout w
    = (match subprocess_run o (length w) (ping_cmd (IS_WINDOWS o) host count) (timeout + 2) with
       | inr (out, err) => parse_ping (out ++ err) (Ping.initial host (out ++ err))
       | inl e =>
           Ok (Ping.initial host
                 (txt "Error running " ++ join (txt " ") (ping_cmd (IS_WINDOWS o) host count)
                  ++ txt ": " ++ e))
       end,
       EvSubprocess (ping_cmd (IS_WINDOWS o) host count) (timeout + 2) :: w).
Proof.
  unfold ping_host. unfold bind at 1.
  change (if IS_WINDOWS o then [txt "ping"; host; txt "-n"; str_of_Z count]
          else [txt "ping"; txt "-c"; str_of_Z count; host])
    with (ping_cmd (IS_WINDOWS o) host count).
  rewrite run_subprocess_eq.
  destruct (subprocess_run o (length w) _ (timeout + 2)) as [e|[out err]]; reflexivity.
Qed.

(** X5.  [ping_host] starts exactly one process, [ping -n count] after the
    host on Windows and [ping -c count] before it elsewhere, with two
    seconds more than its timeout, whatever comes of it.  A result it
    returns names the host it was asked about and holds, as [raw], all the
    process printed (standard output, then standard error) or the text of
    the error of starting it. *)
Theorem ping_host_result o host count timeout w :
  snd (ping_host o host count timeout w)
    = EvSubprocess (ping_cmd (IS_WINDOWS o) host count) (timeout + 2) :: w /\
  forall res,
    fst (ping_host o host count timeout w) = Ok res ->
    Ping.host res = host /\
    Ping.raw res
      = match subprocess_run o (length w) (ping_cmd (IS_WINDOWS o) host count) (timeout + 2) with
        | inr (out, err) => out ++ err
        | inl e => txt "Error running " ++ join (txt " ") (ping_cmd (IS_WINDOWS o) host count)
                   ++ txt ": " ++ e
        end.
Proof.
  rewrite ping_host_eq. split; [reflexivity|]. simpl fst.
  destruct (subprocess_run o (length w) _ (timeout + 2)) as [e|[out err]].
  - intros res [= <-]. auto.
  - intros res H. apply parse_ping_host_raw in H. exact H.
Qed.

Lemma ping_host_result_witness :
  Ping.host (Ping.mk (txt "10.0.0.1") true linux_ping_output (Some 4) (Some 4)
               (Some float_0) (Some float_12_3)) = txt "10.0.0.1" /\
  Ping.raw (Ping.mk (txt "10.0.0.1") true linux_ping_output (Some 4) (Some 4)
              (Some float_0) (Some float_12_3)) = linux_ping_output ++ [].
Proof.
  apply (proj2 (ping_host_result (sample_oracle true linux_ping_output ticking_clock)
                  (txt "10.0.0.1") 4 4 [])).
  vm_compute. reflexivity.
Defined.

Lemma dns_lookup_eq o name w :
  exists r,
    dns_lookup o name w = (Ok r, EvResolve name :: w) /\
    Dns.name r = name /\
    (Dns.success r = true <-> is_Some (Dns.ip r)) /\
    (Dns.success r = true <-> Dns.error r = None).
Proof.
  unfold dns_lookup, bind, call.
  destruct (gethostbyname o (length w) name) as [e|ip]; eexists; (split; [reflexivity|]); simpl.
  - repeat split; try discriminate. intros [x H]. discriminate.
  - repeat split; eauto.
Qed.

Lemma traceroute_host_eq o host max_hops w :
  exists tr,
    traceroute_host o host max_hops w
      = (Ok tr, EvSubprocess (traceroute_cmd (IS_WINDOWS o) host max_hops) 60 :: w).
Proof.
  unfold traceroute_host. unfold bind at 1.
  change (if IS_WINDOWS o then [txt "tracert"; txt "-h"; str_of_Z max_hops; host]
          else [txt "traceroute"; txt "-m"; str_of_Z max_hops; host])
    with (traceroute_cmd (IS_WINDOWS o) host max_hops).
  rewrite run_subprocess_eq.
  destruct (subprocess_run o (length w) _ 60) as [e|[out err]]; eexists; reflexivity.
Qed.

Lemma check_tcp_port_eq o host port timeout w :
  exists r,
    check_tcp_port o host port timeout w
      = (Ok r, EvTime :: EvConnect host port timeout :: EvTime :: w) /\
    Port.host r = host /\ Port.port r = port /\
    (Port.open r = true <-> Port.error r = None) /\
    (Port.open r = true <-> create_connection o (S (length w)) host port timeout = None) /\
    Port.rtt_ms r
      = fmul (fsub (time_time o (S (S (length w)))) (time_time o (length w))) (float_of_Z 1000).
Proof.
  unfold check_tcp_port, bind, call. cbn [length].
  destruct (create_connection o (S (length w)) host port timeout) as [e|];
    eexists; (split; [reflexivity|]); simpl; repeat split; auto; discriminate.
Qed.

Lemma port_probes o h ports : forall w,
  exists rs,
    for_each (fun p => check_tcp_port o h p (float_of_Z 2)) ports w
      = (Ok rs, rev (flat_map (port_events h) ports) ++ w) /\
    map Port.port rs = ports /\
    Forall (fun p => Port.host p = h /\ (Port.open p = true <-> Port.error p = None)) rs.
Proof.
  induction ports as [|p ports IH]; intros w.
  - exists []. simpl. auto.
  - destruct (check_tcp_port_eq o h p (float_of_Z 2) w) as (r & Hr & Hh & Hp & Ho & _).
    destruct (IH (EvTime :: EvConnect h p (float_of_Z 2) :: EvTime :: w)) as (rs & Hrs & Hm & Hf).
    exists (r :: rs). split; [|split].
    + cbn [for_each]. unfold bind at 1. rewrite Hr. unfold bind at 1. rewrite Hrs.
      unfold ret. f_equal. cbn [flat_map]. rewrite rev_app_distr, <- app_assoc. reflexivity.
    + simpl. now rewrite Hp, Hm.
    + constructor; auto.
Qed.

(** ** The traceroute text of a record *)

Lemma truncate_raw_long raw :
  (400 < length raw)%nat -> truncate_raw raw = take 400 raw ++ txt "...[truncated]".
Proof.
  intros H. unfold truncate_raw.
  destruct (400 <? length raw)%nat eqn:E; [reflexivity|]. apply Nat.ltb_ge in E. lia.
Qed.

Lemma truncate_raw_short raw :
  (length raw <= 400)%nat -> truncate_raw raw = raw.
Proof.
  intros H. unfold truncate_raw.
  destruct (400 <? length raw)%nat eqn:E; [apply Nat.ltb_lt in E; lia|].
  rewrite app_nil_r. now apply take_ge.
Qed.

Lemma truncate_raw_length raw : (length (truncate_raw raw) <= 414)%nat.
Proof.
  unfold truncate_raw. rewrite length_app, length_take.
  destruct (400 <? length raw)%nat.
  - change (length (txt "...[truncated]")) with 14%nat. lia.
  - change (length (@nil ascii)) with 0%nat. lia.
Qed.

(** X6.  The stored traceroute text is never longer than 414 characters
    (400 and the marker), always starts with the first 400 characters of
    the output, and is not changed by being cut again. *)
Theorem truncate_raw_bounds raw :
  (length (truncate_raw raw) <= 414)%nat /\
  length (truncate_raw raw) = (if (400 <? length raw)%nat then 414 else length raw)%nat /\
  take 400 (truncate_raw raw) = take 400 raw /\
  truncate_raw (truncate_raw raw) = truncate_raw raw.
Proof.
  destruct (400 <? length raw)%nat eqn:E.
  - apply Nat.ltb_lt in E. rewrite (truncate_raw_long _ E).
    assert (Hl : length (take 400 raw ++ txt "...[truncated]") = 414%nat).
    { rewrite length_app, length_take_le by lia. reflexivity. }
    rewrite Hl. repeat split; try lia.
    + rewrite take_app_length' by (rewrite length_take_le; lia). reflexivity.
    + rewrite truncate_raw_long by lia.
      rewrite take_app_length' by (rewrite length_take_le; lia). reflexivity.
  - apply Nat.ltb_ge in E. rewrite !(truncate_raw_short _ E).
    repeat split; auto; lia.
Qed.

(** ** One host after the other *)

Lemma bind_eq {A B} (m : M A) (f : A -> M B) w a w1 :
  m w = (Ok a, w1) -> bind m f w = f a w1.
Proof. intros H. unfold bind. now rewrite H. Qed.

Lemma bind_raise {A B} (m : M A) (f : A -> M B) w e w1 :
  m w = (Raise e, w1) -> bind m f w = (Raise e, w1).
Proof. intros H. unfold bind. now rewrite H. Qed.

Lemma call_eq {A} ev (answer : nat -> A) w :
  call ev answer w = (Ok (answer (length w)), ev :: w).
Proof. reflexivity. Qed.

Lemma rev_host_events windows ports c h w :
  rev (host_events windows ports c h) ++ w
    = rev (flat_map (port_events h) ports)
        ++ EvSubprocess (traceroute_cmd windows h 20) 60
        :: EvSubprocess (ping_cmd windows h c) 6 :: EvResolve h :: EvNow
        :: EvPrint (txt "--- Running checks for: " ++ h ++ txt " ---") :: w.
Proof.
  unfold host_events, events_to_ping, events_after_ping.
  rewrite rev_app_distr. cbn [rev app]. rewrite <- !app_assoc. reflexivity.
Qed.

(** One host: either a record, after all the calls for the host, or an
    error of the ping parser, after the ping. *)
Lemma diagnose_cases o ports c h w :
  (exists r,
     diagnose o ports c h w = (Ok r, rev (host_events (IS_WINDOWS o) ports c h) ++ w) /\
     Rec.host r = h /\ record_ok ports r) \/
  (exists e,
     (e = ValueError \/ e = OverflowError) /\
     diagnose o ports c h w
       = (Raise e, rev (events_to_ping (IS_WINDOWS o) c h) ++ w)).
Proof.
  unfold diagnose.
  rewrite (bind_eq _ _ _ _ _ (call_eq _ _ _)).
  rewrite (bind_eq _ _ _ _ _ (call_eq _ _ _)).
  destruct (dns_lookup_eq o h (EvNow :: EvPrint (txt "--- Running checks for: " ++ h ++ txt " ---") :: w))
    as (dns & Hdns & Hname & Hip & Herr).
  rewrite (bind_eq _ _ _ _ _ Hdns).
  pose proof (ping_host_eq o h c 4
                (EvResolve h :: EvNow
                 :: EvPrint (txt "--- Running checks for: " ++ h ++ txt " ---") :: w)) as Hping.
  destruct (ping_host o h c 4 _) as [[ping|e] w1] eqn:Ep; rewrite ?Ep in Hping.
  - rewrite (bind_eq _ _ _ _ _ Ep).
    assert (Hph : Ping.host ping = h).
    { injection Hping as Hr _.
      destruct (subprocess_run o _ _ _) as [msg|[out err]].
      - injection Hr as ->. reflexivity.
      - symmetry in Hr. apply parse_ping_host_raw in Hr as [Hr _]. exact Hr. }
    assert (Hw1 : w1 = EvSubprocess (ping_cmd (IS_WINDOWS o) h c) 6 :: EvResolve h :: EvNow
                 :: EvPrint (txt "--- Running checks for: " ++ h ++ txt " ---") :: w)
      by (injection Hping as _ ->; reflexivity).
    subst w1.
    destruct (traceroute_host_eq o h 20
                (EvSubprocess (ping_cmd (IS_WINDOWS o) h c) 6 :: EvResolve h :: EvNow
                 :: EvPrint (txt "--- Running checks for: " ++ h ++ txt " ---") :: w))
      as (tr & Htr).
    rewrite (bind_eq _ _ _ _ _ Htr).
    destruct (port_probes o h ports
                (EvSubprocess (traceroute_cmd (IS_WINDOWS o) h 20) 60
                 :: EvSubprocess (ping_cmd (IS_WINDOWS o) h c) 6 :: EvResolve h :: EvNow
                 :: EvPrint (txt "--- Running checks for: " ++ h ++ txt " ---") :: w))
      as (prs & Hprs & Hports & Hall).
    rewrite (bind_eq _ _ _ _ _ Hprs).
    left. eexists. split; [|split].
    + unfold ret. rewrite rev_host_events. reflexivity.
    + reflexivity.
    + unfold record_ok. simpl. repeat split; auto; try apply Hip; try apply Herr.
      apply truncate_raw_length.
  - rewrite (bind_raise _ _ _ _ _ Ep). right.
    injection Hping as Hr ->.
    destruct (subprocess_run o _ _ _) as [msg|[out err]]; [discriminate|].
    exists e. split; [|reflexivity].
    symmetry in Hr. apply parse_ping_raise_cases in Hr as [[-> _] | [-> _]]; auto.
Qed.

Lemma hosts_in_turn o ports c hosts : forall w,
  (exists rs,
     for_each (diagnose o ports c) hosts w
       = (Ok rs, rev (flat_map (host_events (IS_WINDOWS o) ports c) hosts) ++ w) /\
     map Rec.host rs = hosts /\ Forall (record_ok ports) rs) \/
  (exists e done h rest,
     (e = ValueError \/ e = OverflowError) /\
     hosts = done ++ h :: rest /\
     for_each (diagnose o ports c) hosts w
       = (Raise e,
          rev (flat_map (host_events (IS_WINDOWS o) ports c) done
               ++ events_to_ping (IS_WINDOWS o) c h) ++ w)).
Proof.
  induction hosts as [|h hosts IH]; intros w.
  - left. exists []. simpl. auto.
  - cbn [for_each].
    destruct (diagnose_cases o ports c h w) as [(r & Hr & Hh & Hok) | (e & He & Hr)].
    + rewrite (bind_eq _ _ _ _ _ Hr).
      destruct (IH (rev (host_events (IS_WINDOWS o) ports c h) ++ w))
        as [(rs & Hrs & Hm & Hf) | (e & done & h' & rest & He & -> & Hrs)].
      * left. exists (r :: rs). rewrite (bind_eq _ _ _ _ _ Hrs). unfold ret.
        cbn [flat_map map]. rewrite rev_app_distr, <- app_assoc, Hh, Hm. auto.
      * right. exists e, (h :: done), h', rest. rewrite (bind_raise _ _ _ _ _ Hrs).
        cbn [flat_map]. rewrite <- !app_assoc, (rev_app_distr (host_events _ _ _ h)).
        rewrite <- !app_assoc. auto.
    + right. exists e, [], h, hosts. rewrite (bind_raise _ _ _ _ _ Hr). auto.
Qed.

(** X7.  When [run_diagnostics] returns, it returns one record per host, in
    the order of the hosts; every record is about its host in all its
    parts, holds one port result per port asked for, in order, flags a
    failed lookup or a closed port by the error kept with it, and has a
    traceroute text of at most 414 characters. *)
Theorem run_diagnostics_records o hosts ports ping_count w rs w' :
  run_diagnostics o hosts ports ping_count w = (Ok rs, w') ->
  map Rec.host rs = hosts /\
  Forall (record_ok (match ports with Some ps => ps | None => [] end)) rs.
Proof.
  unfold run_diagnostics. intros H.
  destruct (hosts_in_turn o (match ports with Some ps => ps | None => [] end)
              ping_count hosts w)
    as [(rs' & Hrs & Hm & Hf) | (e' & done & h & rest & _ & _ & Hrs)];
    rewrite Hrs in H; [|discriminate].
  injection H as <- _. auto.
Qed.

(** X8.  When [run_diagnostics] returns, the calls it has made are, host
    after host in the order given: the progress line, the time stamp, the
    name lookup, the ping (6 seconds), the traceroute (20 hops, 60
    seconds) and, for each port in order, the connection attempt (2
    seconds) between two readings of the clock.  No call depends on how an
    earlier one ended. *)
Theorem run_diagnostics_calls o hosts ports ping_count w rs w' :
  run_diagnostics o hosts ports ping_count w = (Ok rs, w') ->
  w' = rev (flat_map (host_events (IS_WINDOWS o)
                        (match ports with Some ps => ps | None => [] end) ping_count) hosts)
       ++ w.
Proof.
  unfold run_diagnostics. intros H.
  destruct (hosts_in_turn o (match ports with Some ps => ps | None => [] end)
              ping_count hosts w)
    as [(rs' & Hrs & Hm & Hf) | (e' & done & h & rest & _ & _ & Hrs)];
    rewrite Hrs in H; [|discriminate].
  injection H as _ <-. reflexivity.
Qed.


Lemma run_diagnostics_records_witness :
  match run_diagnostics (sample_oracle false linux_ping_output ticking_clock)
          [txt "10.0.0.1"; txt "10.0.0.2"] (Some [22; 443]) 3 [] with
  | (Ok rs, _) =>
      map Rec.host rs = [txt "10.0.0.1"; txt "10.0.0.2"] /\ Forall (record_ok [22; 443]) rs
  | (Raise _, _) => False
  end.
Proof.
  destruct (run_diagnostics (sample_oracle false linux_ping_output ticking_clock)
              [txt "10.0.0.1"; txt "10.0.0.2"] (Some [22; 443]) 3 [])
    as [[rs|e] w'] eqn:E.
  - exact (run_diagnostics_records _ _ _ _ _ _ _ E).
  - vm_compute in E. discriminate E.
Defined.

Lemma run_diagnostics_calls_witness :
  match run_diagnostics (sample_oracle false linux_ping_output ticking_clock)
          [txt "10.0.0.1"; txt "10.0.0.2"] (Some [22; 443]) 3 [] with
  | (Ok _, w') =>
      w' = rev (flat_map (host_events false [22; 443] 3) [txt "10.0.0.1"; txt "10.0.0.2"]) ++ []
  | (Raise _, _) => False
  end.
Proof.
  destruct (run_diagnostics (sample_oracle false linux_ping_output ticking_clock)
              [txt "10.0.0.1"; txt "10.0.0.2"] (Some [22; 443]) 3 [])
    as [[rs|e] w'] eqn:E.
  - exact (run_diagnostics_calls _ _ _ _ _ _ _ E).
  - vm_compute in E. discriminate E.
Defined.


(** ** The file *)

Lemma flat_row_length r a b c : length (flat_row r a b c) = length keys.
Proof. reflexivity. Qed.

Lemma record_cells_shape r :
  length (record_cells r) = rows_of_record r /\
  Forall (fun row => length row = length keys) (record_cells r).
Proof.
  unfold record_cells, rows_of_record. destruct (Rec.ports r) as [|p ps].
  - split; [reflexivity|]. repeat constructor.
  - split; [rewrite length_map; simpl; lia|].
    apply List.Forall_forall. intros row Hin. apply in_map_iff in Hin as (q & <- & _).
    apply flat_row_length.
Qed.

(** X10.  The rows written for a list of records are never refused by the
    writer; every row has as many cells as the header has columns, and
    there are as many rows as the records have ports, a record without
    port counting for one. *)
Theorem csv_rows_shape results :
  exists cells,
    all_rows keys (build_rows results) = Ok cells /\
    Forall (fun row => length row = length keys) cells /\
    length cells = list_sum (map rows_of_record results) /\
    (length results <= length cells)%nat.
Proof.
  exists (concat (map record_cells results)). split; [apply all_rows_build|].
  induction results as [|r results (IH1 & IH2 & IH3)]; simpl.
  - repeat split; auto.
  - destruct (record_cells_shape r) as [Hl Hf]. rewrite length_app, Hl, IH2.
    assert (1 <= rows_of_record r)%nat by (unfold rows_of_record; lia).
    repeat split; [apply Forall_app; auto | lia].
Qed.

Lemma save_results_csv_cases o results filename w :
  save_results_csv o results filename w
    = match write_error o (length w) filename with
      | Some e =>
          (Raise e, EvWriteCsv filename keys (concat (map record_cells results)) :: w)
      | None =>
          (Ok tt,
           EvPrint (txt "Saved results to " ++ filename)
             :: EvWriteCsv filename keys (concat (map record_cells results)) :: w)
      end.
Proof.
  unfold save_results_csv, bind, lift, call, raise. rewrite all_rows_build.
  destruct (write_error o (length w) filename); reflexivity.
Qed.



(** ** Telemetry *)


Lemma cycle_negative_interval o hosts ports interval w u w' :
  interval < 0 -> cycle o hosts ports interval w <> (Ok u, w').
Proof.
  intros Hi H. unfold cycle in H.
  apply bind_ok_inv in H as (results & w1 & _ & H).
  apply bind_ok_inv in H as (u1 & w2 & _ & H).
  apply bind_ok_inv in H as (now & w3 & _ & H).
  apply bind_ok_inv in H as (u2 & w4 & _ & H).
  rewrite sleep_eq in H. apply Z.ltb_lt in Hi. rewrite Hi in H.
  destruct ((interval <? - sleep_max) || (sleep_max <? interval)); discriminate H.
Qed.

(** X13.  How a telemetry run ends.  It returns only at a test of the
    deadline that fails: the last call is a reading of the clock at which
    the elapsed time is not below [duration].  It fails only where a cycle
    fails, with the error of that cycle and without any further call, the
    test before that cycle having passed.  Otherwise it is still running. *)
Theorem telemetry_run_end o hosts ports interval duration start : forall fuel w r w',
  monitor_loop o fuel hosts ports interval duration start w = (r, w') ->
  match r with
  | Ok (Some _) =>
      exists w0, w' = EvTime :: w0 /\
        float_lt_Z (fsub (time_time o (length w0)) start) duration = false
  | Ok None => True
  | Raise e =>
      exists w0,
        float_lt_Z (fsub (time_time o (length w0)) start) duration = true /\
        cycle o hosts ports interval (EvTime :: w0) = (Raise e, w')
  end.
Proof.
  induction fuel as [|fuel IH]; intros w r w'; cbn [monitor_loop].
  - intros [= <- <-]. exact I.
  - rewrite (bind_eq _ _ _ _ _ (call_eq _ _ _)).
    destruct (float_lt_Z (fsub (time_time o (length w)) start) duration) eqn:Hlt.
    + destruct (cycle o hosts ports interval (EvTime :: w)) as [[u|e] w1] eqn:Hc.
      * rewrite (bind_eq _ _ _ _ _ Hc). apply IH.
      * rewrite (bind_raise _ _ _ _ _ Hc). intros [= <- <-]. eauto.
    + intros [= <- <-]. eauto.
Qed.

(** X14.  With a negative [interval] no second cycle is ever started: the
    run either returns at its first test of the deadline, without a cycle,
    or fails in its first cycle, at the latest at the sleep, after the file
    has been written once. *)
Theorem negative_interval_one_cycle o fuel hosts ports interval duration w :
  interval < 0 ->
  match monitor_hosts o (S fuel) hosts ports interval duration w with
  | (Ok (Some _), w') => w' = EvTime :: EvTime :: w
  | (Ok None, _) => False
  | (Raise e, w') => cycle o hosts ports interval (EvTime :: EvTime :: w) = (Raise e, w')
  end.
Proof.
  intros Hi. rewrite monitor_hosts_step.
  destruct (float_lt_Z _ duration); [|reflexivity].
  destruct (cycle o hosts ports interval (EvTime :: EvTime :: w)) as [[u|e] w1] eqn:Hc.
  - exfalso. exact (cycle_negative_interval _ _ _ _ _ _ _ Hi Hc).
  - now rewrite (bind_raise _ _ _ _ _ Hc).
Qed.

Lemma telemetry_run_end_witness :
  exists w0, [EvTime] = EvTime :: w0 /\
    float_lt_Z (fsub (time_time (sample_oracle false linux_ping_output ticking_clock)
                        (length w0)) (float_of_Z 1700000000)) 0 = false.
Proof.
  apply (telemetry_run_end (sample_oracle false linux_ping_output ticking_clock)
           [txt "10.0.0.1"] (Some [22]) 30 0 (float_of_Z 1700000000) 1 []
           (Ok (Some tt)) [EvTime]).
  vm_compute. reflexivity.
Defined.

Lemma negative_interval_one_cycle_witness :
  match monitor_hosts (sample_oracle false linux_ping_output ticking_clock) 1
          [txt "10.0.0.1"] (Some [22]) (-1) 300 [] with
  | (Ok (Some _), w') => w' = [EvTime; EvTime]
  | (Ok None, _) => False
  | (Raise e, w') =>
      cycle (sample_oracle false linux_ping_output ticking_clock)
        [txt "10.0.0.1"] (Some [22]) (-1) [EvTime; EvTime] = (Raise e, w')
  end.
Proof.
  apply (negative_interval_one_cycle (sample_oracle false linux_ping_output ticking_clock) 0
           [txt "10.0.0.1"] (Some [22]) (-1) 300 []).
  lia.
Defined.

(** ** The files written *)

Lemma written_files_app tr1 tr2 :
  written_files (tr1 ++ tr2) = written_files tr1 ++ written_files tr2.
Proof. apply flat_map_app. Qed.

Lemma written_files_rev tr : written_files (rev tr) = rev (written_files tr).
Proof.
  induction tr as [|ev tr IH]; [reflexivity|].
  cbn [rev]. rewrite written_files_app, IH. destruct ev; simpl; rewrite ?app_nil_r; reflexivity.
Qed.

Lemma written_files_ports h ports : written_files (flat_map (port_events h) ports) = [].
Proof. induction ports as [|p ports IH]; [reflexivity | exact IH]. Qed.

Lemma written_files_host windows ports c h :
  written_files (host_events windows ports c h) = [].
Proof.
  unfold host_events, events_after_ping. rewrite written_files_app. simpl.
  apply written_files_ports.
Qed.

Lemma written_files_hosts windows ports c hosts :
  written_files (flat_map (host_events windows ports c) hosts) = [].
Proof.
  induction hosts as [|h hosts IH]; [reflexivity|].
  cbn [flat_map]. now rewrite written_files_app, written_files_host, IH.
Qed.

(** The diagnostics write no file, however they end. *)
Lemma run_diagnostics_writes_nothing o hosts ports c w r w' :
  run_diagnostics o hosts ports c w = (r, w') ->
  exists tr, w' = tr ++ w /\ written_files tr = [].
Proof.
  unfold run_diagnostics. intros H.
  destruct (hosts_in_turn o (match ports with Some ps => ps | None => [] end) c hosts w)
    as [(rs' & Hrs & _) | (e' & done & h & rest & _ & _ & Hrs)];
    rewrite Hrs in H; injection H as _ <-; eexists; (split; [reflexivity|]).
  - now rewrite written_files_rev, written_files_hosts.
  - now rewrite written_files_rev, written_files_app, written_files_hosts.
Qed.

Lemma run_diagnostics_hosts o hosts ports c w rs w' :
  run_diagnostics o hosts ports c w = (Ok rs, w') -> map Rec.host rs = hosts.
Proof.
  unfold run_diagnostics. intros H.
  destruct (hosts_in_turn o (match ports with Some ps => ps | None => [] end) c hosts w)
    as [(rs' & Hrs & Hm & _) | (e' & done & h & rest & _ & _ & Hrs)];
    rewrite Hrs in H; [|discriminate].
  injection H as <- _. exact Hm.
Qed.

Lemma cycle_files o hosts ports interval w r w' :
  cycle o hosts ports interval w = (r, w') ->
  exists tr, w' = tr ++ w /\
    Forall (fun f => f = txt "telemetry_log.csv") (written_files tr).
Proof.
  unfold cycle. intros H.
  destruct (run_diagnostics o hosts ports 2 w) as [[results|e] w1] eqn:Hd;
    pose proof (run_diagnostics_writes_nothing _ _ _ _ _ _ _ Hd) as (tr & -> & Htr).
  - rewrite (bind_eq _ _ _ _ _ Hd) in H.
    pose proof (save_results_csv_cases o results (txt "telemetry_log.csv") (tr ++ w)) as Hs.
    destruct (write_error o _ _) as [e|].
    + rewrite (bind_raise _ _ _ _ _ Hs) in H. injection H as _ <-.
      exists (EvWriteCsv (txt "telemetry_log.csv") keys (concat (map record_cells results)) :: tr).
      split; [reflexivity|]. cbn [written_files flat_map]. fold (written_files tr).
      rewrite Htr. repeat constructor.
    + rewrite (bind_eq _ _ _ _ _ Hs) in H.
      rewrite (bind_eq _ _ _ _ _ (call_eq _ _ _)) in H.
      rewrite (bind_eq _ _ _ _ _ (call_eq _ _ _)) in H.
      rewrite sleep_eq in H.
      destruct ((interval <? - sleep_max) || (sleep_max <? interval));
        [|destruct (interval <? 0); [|destruct (sleep_error o _ interval)]];
        injection H as _ <-; eexists;
        (split; [rewrite ?app_comm_cons; reflexivity|]);
        cbn [written_files flat_map app]; fold (written_files tr);
        rewrite Htr; repeat constructor.
  - rewrite (bind_raise _ _ _ _ _ Hd) in H. injection H as _ <-. exists tr. rewrite Htr. auto.
Qed.

Lemma monitor_loop_files o hosts ports interval duration start : forall fuel w r w',
  monitor_loop o fuel hosts ports interval duration start w = (r, w') ->
  exists tr, w' = tr ++ w /\
    Forall (fun f => f = txt "telemetry_log.csv") (written_files tr).
Proof.
  induction fuel as [|fuel IH]; intros w r w'; cbn [monitor_loop].
  - intros [= <- <-]. exists []. auto.
  - rewrite (bind_eq _ _ _ _ _ (call_eq _ _ _)).
    destruct (float_lt_Z _ duration).
    + destruct (cycle o hosts ports interval (EvTime :: w)) as [[u|e] w1] eqn:Hc;
        apply cycle_files in Hc as Hf; destruct Hf as (tr1 & -> & Hf1).
      * rewrite (bind_eq _ _ _ _ _ Hc). intros H. apply IH in H as (tr2 & -> & Hf2).
        exists (tr2 ++ tr1 ++ [EvTime]). rewrite <- !app_assoc. split; [reflexivity|].
        rewrite !written_files_app. simpl. rewrite app_nil_r. now apply Forall_app.
      * rewrite (bind_raise _ _ _ _ _ Hc). intros [= <- <-].
        exists (tr1 ++ [EvTime]). rewrite <- app_assoc. split; [reflexivity|].
        rewrite written_files_app. simpl. now rewrite app_nil_r.
    + intros [= <- <-]. exists [EvTime]. auto.
Qed.

(** X15.  Which files the program writes.  With [--telemetry] the output
    path and the ping count of the command line are not used, and no file
    but [telemetry_log.csv] is ever written.  Without it the only file
    written is the output path, and a run that returns has written it
    exactly once, after all the probes, with one record per host. *)
Theorem main_cli_files o fuel args w r w' :
  main_cli o fuel args w = (r, w') ->
  exists tr, w' = tr ++ w /\
    match Args.telemetry args with
    | Some (interval, duration) =>
        Forall (fun f => f = txt "telemetry_log.csv") (written_files tr) /\
        forall count out,
          main_cli o fuel (Args.mk (Args.hosts args) (Args.ports args) count out
                             (Some (interval, duration))) w = (r, w')
    | None =>
        Forall (fun f => f = Args.out args) (written_files tr) /\
        (forall x, r = Ok x ->
           exists rs w1,
             run_diagnostics o (Args.hosts args) (Some (Args.ports args)) (Args.count args) w
               = (Ok rs, w1) /\
             map Rec.host rs = Args.hosts args /\
             w' = EvPrint (txt "Saved results to " ++ Args.out args)
                    :: EvWriteCsv (Args.out args) keys (concat (map record_cells rs)) :: w1 /\
             written_files tr = [Args.out args])
    end.
Proof.
  unfold main_cli. destruct (Args.telemetry args) as [[interval duration]|].
  - intros H. unfold monitor_hosts in H.
    rewrite (bind_eq _ _ _ _ _ (call_eq _ _ _)) in H.
    pose proof H as Hf. apply monitor_loop_files in Hf as (tr & -> & Hf).
    exists (tr ++ [EvTime]). rewrite <- app_assoc. split; [reflexivity|]. split.
    + rewrite written_files_app. simpl. now rewrite app_nil_r.
    + intros count out. simpl. unfold monitor_hosts.
      rewrite (bind_eq _ _ _ _ _ (call_eq _ _ _)). exact H.
  - intros H.
    destruct (run_diagnostics o (Args.hosts args) (Some (Args.ports args)) (Args.count args) w)
      as [[rs|e] w1] eqn:Hd.
    + rewrite (bind_eq _ _ _ _ _ Hd) in H.
      pose proof (run_diagnostics_hosts _ _ _ _ _ _ _ Hd) as Hhosts.
      pose proof (run_diagnostics_writes_nothing _ _ _ _ _ _ _ Hd) as (tr & Hw1 & Htr).
      pose proof (save_results_csv_cases o rs (Args.out args) w1) as Hs.
      destruct (write_error o (length w1) (Args.out args)) as [e|]; [rename Hs into Hs'|].
      2: { rewrite (bind_eq _ _ _ _ _ Hs) in H. unfold ret in H. injection H as <- <-.
        rewrite Hw1.
        exists (EvPrint (txt "Saved results to " ++ Args.out args)
                :: EvWriteCsv (Args.out args) keys (concat (map record_cells rs)) :: tr).
        split; [reflexivity|].
        assert (Hwf : written_files
                        (EvPrint (txt "Saved results to " ++ Args.out args)
                         :: EvWriteCsv (Args.out args) keys (concat (map record_cells rs)) :: tr)
                      = [Args.out args]).
        { cbn [written_files flat_map app]. fold (written_files tr). now rewrite Htr. }
        rewrite Hwf. split; [repeat constructor|].
        intros x _. exists rs, (tr ++ w). rewrite Hw1 in Hd. auto. }
      * rewrite (bind_raise _ _ _ _ _ Hs') in H. injection H as <- <-.
        rewrite Hw1.
        exists (EvWriteCsv (Args.out args) keys (concat (map record_cells rs)) :: tr).
        split; [reflexivity|].
        cbn [written_files flat_map app]. fold (written_files tr). rewrite Htr.
        split; [repeat constructor | discriminate].
    + rewrite (bind_raise _ _ _ _ _ Hd) in H. injection H as <- <-.
      pose proof (run_diagnostics_writes_nothing _ _ _ _ _ _ _ Hd) as (tr & Hw1 & Htr).
      exists tr. rewrite Htr. split; [exact Hw1|]. split; [constructor | discriminate].
Qed.

Lemma main_cli_files_witness :
  (exists tr, [EvTime; EvTime] = tr ++ [] /\
     Forall (fun f => f = txt "telemetry_log.csv") (written_files tr) /\
     forall count out,
       main_cli (sample_oracle false linux_ping_output ticking_clock) 1
         (Args.mk [txt "10.0.0.1"] [22] count out (Some (0, 0))) []
       = (Ok (Some tt), [EvTime; EvTime])) /\
  match main_cli (sample_oracle false linux_ping_output ticking_clock) 1
          (Args.mk [txt "10.0.0.1"] [22] 3 (txt "out.csv") None) [] with
  | (r, w') =>
      exists tr, w' = tr ++ [] /\
        Forall (fun f => f = txt "out.csv") (written_files tr) /\
        (forall x, r = Ok x ->
           exists rs w1,
             run_diagnostics (sample_oracle false linux_ping_output ticking_clock)
               [txt "10.0.0.1"] (Some [22]) 3 [] = (Ok rs, w1) /\
             map Rec.host rs = [txt "10.0.0.1"] /\
             w' = EvPrint (txt "Saved results to " ++ txt "out.csv")
                    :: EvWriteCsv (txt "out.csv") keys (concat (map record_cells rs)) :: w1 /\
             written_files tr = [txt "out.csv"])
  end.
Proof.
  split.
  - apply (main_cli_files (sample_oracle false linux_ping_output ticking_clock) 1
             (Args.mk [txt "10.0.0.1"] [22] 3 (txt "out.csv") (Some (0, 0))) []
             (Ok (Some tt)) [EvTime; EvTime]).
    vm_compute. reflexivity.
  - destruct (main_cli (sample_oracle false linux_ping_output ticking_clock) 1
                (Args.mk [txt "10.0.0.1"] [22] 3 (txt "out.csv") None) []) as [r w'] eqn:E.
    exact (main_cli_files _ _ _ _ _ _ E).
Defined.

(** ** Reading a Windows summary *)

Lemma re_search_here r s m : match_here r [] s = Some m -> re_search r s = Some m.
Proof. intros H. destruct s; simpl; now rewrite H. Qed.

Lemma re_search_skip r (first : ascii -> bool) pre s :
  (forall c s', first c = false -> match_here r [] (c :: s') = None) ->
  forallb (fun c => negb (first c)) pre = true ->
  re_search r (pre ++ s) = re_search r s.
Proof.
  intros Hfail. induction pre as [|c pre IH]; [reflexivity|].
  simpl. intros H. apply andb_true_iff in H as [Hc Hpre].
  apply negb_true_iff in Hc. rewrite (Hfail _ _ Hc). now apply IH.
Qed.

Lemma match_here_lit l r marks s :
  match_here (lit l ++ r) marks (txt l ++ s) = match_here r marks s.
Proof.
  unfold lit. generalize (txt l) as t. intros t.
  induction t as [|a t IH]; [reflexivity|].
  simpl. rewrite (proj2 (is_char_eq a a) eq_refl). exact IH.
Qed.

Lemma greedy_star_longest {R} p (k : text -> option R) w s' x :
  forallb p w = true ->
  (match s' with [] => True | c :: _ => p c = false end) ->
  k s' = Some x -> greedy_star p k (w ++ s') = Some x.
Proof.
  intros Hw Hs Hk. induction w as [|c w IH].
  - destruct s' as [|c s']; simpl; [exact Hk|]. now rewrite Hs.
  - simpl in Hw. apply andb_true_iff in Hw as [Hc Hw]. simpl. rewrite Hc.
    now rewrite (IH Hw).
Qed.

Lemma match_here_group_longest r marks w s' x :
  run digit w -> no_digit_ahead s' ->
  match_here r ((w ++ s', s') :: marks) s' = Some x ->
  match_here (Group digit :: r) marks (w ++ s') = Some x.
Proof.
  intros [Hne Hw] Hs Hk. destruct w as [|c w]; [congruence|].
  simpl in Hw. apply andb_true_iff in Hw as [Hc Hw].
  cbn [match_here]. unfold greedy_plus. cbn [app]. rewrite Hc.
  apply (greedy_star_longest digit
           (fun rest => match_here r (((c :: w) ++ s', rest) :: marks) rest) w s' x Hw);
    [destruct s'; [exact I | exact Hs] | exact Hk].
Qed.

Lemma windows_summary_first_char c s :
  is_char "S" c = false -> match_here windows_summary_re [] (c :: s) = None.
Proof. intros H. unfold windows_summary_re. cbn. now rewrite H. Qed.

(** X16.  A Windows summary is read as printed.  In a text with no capital
    [S] before [Sent = a, Received = b, Lost = c], where [a], [b], [c] are
    digits and [c] is not followed by a digit, the Windows pattern captures
    [a], [b] and [c]; if the Unix pattern does not match, then [int]
    raises [ValueError] when one of them has more than 4300 digits, and
    otherwise the counters are their values and the loss is [c / a * 100],
    unset for [a = 0], an [OverflowError] when [c / a] is too large for a
    float. *)
Theorem windows_summary_read pre a b c post result :
  forallb (fun ch => negb (is_char "S" ch)) pre = true ->
  run digit a -> run digit b -> run digit c -> no_digit_ahead post ->
  let text := pre ++ txt "Sent = " ++ a ++ txt ", Received = " ++ b
                  ++ txt ", Lost = " ++ c ++ post in
  re_search windows_summary_re text = Some [a; b; c] /\
  (re_search unix_summary_re text = None ->
   parse_counters text result =
     if too_long a || too_long b || too_long c then Raise ValueError
     else if digits_value a =? 0
     then Ok (Ping.update_counters result (Some 0) (Some (digits_value b)) None)
     else if is_infinite (fdiv (exact_of_Z (digits_value c)) (exact_of_Z (digits_value a)))
     then Raise OverflowError
     else Ok (Ping.update_counters result (Some (digits_value a)) (Some (digits_value b))
                (Some (fmul (fdiv (exact_of_Z (digits_value c)) (exact_of_Z (digits_value a)))
                            (float_of_Z 100))))).
Proof.
  intros Hpre Ha Hb Hc Hpost text.
  assert (Hs : re_search windows_summary_re text = Some [a; b; c]).
  { unfold text. rewrite (re_search_skip _ (is_char "S") pre _ windows_summary_first_char Hpre).
    apply re_search_here. unfold windows_summary_re.
    rewrite match_here_lit. cbn [app].
    apply match_here_group_longest; [exact Ha | reflexivity|].
    rewrite (match_here_lit ", Received = "). cbn [app].
    apply match_here_group_longest; [exact Hb | reflexivity|].
    rewrite (match_here_lit ", Lost = "). cbn [app].
    apply match_here_group_longest; [exact Hc | exact Hpost|].
    cbn [match_here rev app map]. rewrite (slice_app c post).
    rewrite (slice_app b (txt ", Lost = " ++ c ++ post)).
    rewrite (slice_app a (txt ", Received = " ++ b ++ txt ", Lost = " ++ c ++ post)).
    reflexivity. }
  split; [exact Hs|]. intros Hu.
  destruct (too_long a || too_long b || too_long c) eqn:L.
  - exact (parse_counters_windows_long _ result _ Hu Hs L).
  - apply orb_false_iff in L as [L L3]. apply orb_false_iff in L as [L1 L2].
    rewrite (parse_counters_windows _ result _ Hu Hs L1 L2 L3).
    cbv zeta. cbn [group nth Nat.sub].
    destruct (digits_value a =? 0) eqn:Hz; [|reflexivity].
    apply Z.eqb_eq in Hz. now rewrite Hz.
Qed.

Lemma windows_summary_read_witness :
  re_search windows_summary_re windows_ping_output = Some [txt "2"; txt "1"; txt "1"].
Proof.
  apply (windows_summary_read
           (txt "
Pinging 10.0.0.1 with 32 bytes of data:
Reply from 10.0.0.1: bytes=32 time=5ms TTL=64
Request timed out.

Ping statistics for 10.0.0.1:
    Packets: ")
           (txt "2") (txt "1") (txt "1")
           (txt " (50% loss),
Approximate round trip times in milli-seconds:
    Minimum = 5ms, Maximum = 5ms, Average = 5ms
")
           (Ping.initial [] [])).
  - vm_compute. reflexivity.
  - split; [discriminate | reflexivity].
  - split; [discriminate | reflexivity].
  - split; [discriminate | reflexivity].
  - reflexivity.
Defined.

Lemma parser_raises_iff_witness :
  parse_ping overflow_text (Ping.initial [] overflow_text) = Raise OverflowError /\
  parse_ping long_counter_text (Ping.initial [] long_counter_text) = Raise ValueError.
Proof.
  split.
  - apply (proj2 (parser_raises_iff overflow_text (Ping.initial [] overflow_text)
                    OverflowError)).
    right. split; [reflexivity|]. split; [vm_compute; reflexivity|].
    exists [txt "1"; txt "1"; txt "1" ++ repeat "0"%char 309].
    split; [vm_compute; reflexivity|]. split; [vm_compute; reflexivity|].
    split; [discriminate | vm_compute; reflexivity].
  - apply (proj2 (parser_raises_iff long_counter_text (Ping.initial [] long_counter_text)
                    ValueError)).
    left. split; [reflexivity|]. left.
    exists [repeat "1"%char 4301; txt "1"; txt "0"].
    split; vm_compute; reflexivity.
Defined.

Lemma ttl_marker_any_case_witness :
  contains (txt "ttl=") (lower reply_example) = true.
Proof.
  apply (proj2 (ttl_marker_any_case reply_example)).
  exists (txt "Reply from 10.0.0.1: bytes=32 time=5ms "), "T"%char, "T"%char, "L"%char, (txt "64").
  split; [reflexivity|]. auto.
Defined.

(** ** The summaries, counters of ordinary length *)

(** X17.  When the Unix summary pattern matches and its two counters have
    at most 4300 digits each, the parser returns, and [sent], [received]
    and [loss_pct] are [int], [int] and [float] of the three groups; the
    two example lines give 4, 4, 0.0, 12.3 and success, alone or at the end
    of a whole ping output. *)
Theorem unix_summary_extracted :
  (forall text m result,
     re_search unix_summary_re text = Some m ->
     too_long (group m 1) = false -> too_long (group m 2) = false ->
     exists sent received loss res,
       py_int (group m 1) = Ok sent /\ py_int (group m 2) = Ok received /\
       py_float (group m 3) = Ok loss /\
       parse_ping text result = Ok res /\
       Ping.sent res = Some sent /\ Ping.received res = Some received /\
       Ping.loss_pct res = Some loss) /\
  (forall h,
     parse_ping unix_example (Ping.initial h unix_example)
       = Ok (Ping.mk h true unix_example (Some 4) (Some 4) (Some float_0) (Some float_12_3))) /\
  (forall h,
     parse_ping linux_ping_output (Ping.initial h linux_ping_output)
       = Ok (Ping.mk h true linux_ping_output (Some 4) (Some 4) (Some float_0) (Some float_12_3))).
Proof.
  split; [|split; intros h; vm_compute; reflexivity].
  intros text m result H L1 L2.
  destruct (unix_summary_groups _ _ H) as (H1 & H2 & H3).
  destruct (parse_ping_counters _ _ _ (parse_counters_unix text result m H L1 L2))
    as (res & Hres & Hs & Hr & Hl).
  exists (digits_value (group m 1)), (digits_value (group m 2)),
         (fdiv (exact_of_Z (digits_value (group m 3))) (exact_of_Z 1)), res.
  rewrite (py_int_run _ H1 L1), (py_int_run _ H2 L2), (py_float_run _ H3). auto 10.
Qed.

Lemma unix_summary_extracted_witness :
  exists sent received loss res,
    py_int (group [txt "4"; txt "4"; txt "0"] 1) = Ok sent /\
    py_int (group [txt "4"; txt "4"; txt "0"] 2) = Ok received /\
    py_float (group [txt "4"; txt "4"; txt "0"] 3) = Ok loss /\
    parse_ping unix_example (Ping.initial [] unix_example) = Ok res /\
    Ping.sent res = Some sent /\ Ping.received res = Some received /\
    Ping.loss_pct res = Some loss.
Proof.
  apply (proj1 unix_summary_extracted unix_example [txt "4"; txt "4"; txt "0"]).
  - vm_compute. reflexivity.
  - vm_compute. reflexivity.
  - vm_compute. reflexivity.
Defined.

(** X18.  When the Unix pattern is absent, the Windows pattern matches and
    its three counters have at most 4300 digits each, the loss is
    [(lost / sent) * 100] as Python computes it on the counters captured:
    unset when [sent] is 0, the float product when the quotient is a
    float, and the [OverflowError] of the division otherwise.  The example
    gives 50.0 and success. *)
Theorem windows_loss_derived :
  (forall text m result,
     re_search unix_summary_re text = None ->
     re_search windows_summary_re text = Some m ->
     too_long (group m 1) = false -> too_long (group m 2) = false ->
     too_long (group m 3) = false ->
     exists sent received lost,
       py_int (group m 1) = Ok sent /\ py_int (group m 2) = Ok received /\
       py_int (group m 3) = Ok lost /\
       (sent = 0 ->
        exists res, parse_ping text result = Ok res /\
          Ping.sent res = Some 0 /\ Ping.received res = Some received /\
          Ping.loss_pct res = None) /\
       (sent <> 0 ->
        is_infinite (fdiv (exact_of_Z lost) (exact_of_Z sent)) = false ->
        exists res, parse_ping text result = Ok res /\
          Ping.sent res = Some sent /\ Ping.received res = Some received /\
          Ping.loss_pct res
            = Some (fmul (fdiv (exact_of_Z lost) (exact_of_Z sent)) (float_of_Z 100))) /\
       (sent <> 0 ->
        is_infinite (fdiv (exact_of_Z lost) (exact_of_Z sent)) = true ->
        parse_ping text result = Raise OverflowError)) /\
  (forall h,
     parse_ping windows_example (Ping.initial h windows_example)
       = Ok (Ping.mk h true windows_example (Some 4) (Some 2) (Some float_50) None)).
Proof.
  split; [|intros h; vm_compute; reflexivity].
  intros text m result Hu Hw L1 L2 L3.
  destruct (windows_summary_groups _ _ Hw) as (H1 & H2 & H3).
  pose proof (parse_counters_windows text result m Hu Hw L1 L2 L3) as Hc. cbv zeta in Hc.
  exists (digits_value (group m 1)), (digits_value (group m 2)), (digits_value (group m 3)).
  rewrite (py_int_run _ H1 L1), (py_int_run _ H2 L2), (py_int_run _ H3 L3).
  repeat split.
  - intros Hz. rewrite Hz in Hc. simpl in Hc.
    destruct (parse_ping_counters _ _ _ Hc) as (res & Hres & Hs & Hr & Hl).
    exists res. auto.
  - intros Hz Hi. apply Z.eqb_neq in Hz. rewrite Hz, Hi in Hc.
    destruct (parse_ping_counters _ _ _ Hc) as (res & Hres & Hs & Hr & Hl).
    exists res. auto.
  - intros Hz Hi. apply Z.eqb_neq in Hz. rewrite Hz, Hi in Hc.
    now apply parse_ping_raise.
Qed.

Lemma windows_loss_derived_witness :
  (exists res,
     parse_ping zero_sent_text (Ping.initial [] zero_sent_text) = Ok res /\
     Ping.sent res = Some 0 /\ Ping.received res = Some 0 /\ Ping.loss_pct res = None) /\
  (exists res,
     parse_ping windows_example (Ping.initial [] windows_example) = Ok res /\
     Ping.sent res = Some 4 /\ Ping.received res = Some 2 /\
     Ping.loss_pct res = Some (fmul (fdiv (exact_of_Z 2) (exact_of_Z 4)) (float_of_Z 100))).
Proof.
  split.
  - destruct (proj1 windows_loss_derived zero_sent_text [txt "0"; txt "0"; txt "0"]
                (Ping.initial [] zero_sent_text))
      as (sent & received & lost & Hs & Hr & Hl & H & _);
      [vm_compute; reflexivity | vm_compute; reflexivity | vm_compute; reflexivity
      | vm_compute; reflexivity | vm_compute; reflexivity |].
    vm_compute in Hs, Hr. injection Hs as <-. injection Hr as <-. apply H. reflexivity.
  - destruct (proj1 windows_loss_derived windows_example [txt "4"; txt "2"; txt "2"]
                (Ping.initial [] windows_example))
      as (sent & received & lost & Hs & Hr & Hl & _ & H & _);
      [vm_compute; reflexivity | vm_compute; reflexivity | vm_compute; reflexivity
      | vm_compute; reflexivity | vm_compute; reflexivity |].
    vm_compute in Hs, Hr, Hl. injection Hs as <-. injection Hr as <-. injection Hl as <-.
    apply H; [discriminate | vm_compute; reflexivity].
Defined.
